(** * motorBldc.c : six-step commutation of a three-phase BLDC motor

    A shallow embedding of [software/motorBldc.c].  The two globals
    [BLDC_motor] and [BLDC_command] and the peripherals the file talks to
    (PWM, GPIO, ADC, millisecond timer) are threaded through a small
    state-and-error monad; fixed-width C integers are [Z] with the
    wrap-around written out; an array access outside its bounds and a
    dereference of the NULL dormant-phase pointer have no defined result
    and are the monad's failure.

    Conventions of the embedding:
    - every function of the file runs to completion before the next one
      starts (the ADC interrupt does not preempt the foreground here);
    - the target is a 32-bit microcontroller: [int] has 32 bits, so
      [uint8_t] and [uint16_t] operands are promoted to [int] and
      [uint32_t] arithmetic wraps modulo 2^32;
    - [bool] is C's [_Bool]: a value converted to it becomes 0 or 1;
    - the hardware layer is not part of the sources: [GPIO_readInput]
      returns a level 0 or 1, [ADC_getVoltage] a [uint16_t],
      [MSTMR_getMilliSeconds] a [uint32_t]; what they return is given by
      an oracle indexed by the number of inputs read so far. *)

From Stdlib Require Import ZArith List Bool Lia Permutation.
Import ListNotations.
Local Open Scope Z_scope.

(** ** Fixed-width integers *)

Definition u16 (x : Z) : Z := x mod 65536.
Definition u32 (x : Z) : Z := x mod 4294967296.
(** Conversion to [int8_t] (two's complement wrap). *)
Definition s8 (x : Z) : Z := (x + 128) mod 256 - 128.

(** Conversion to [bool] ([_Bool]): 0 stays 0, anything else becomes 1. *)
Definition c_bool (x : Z) : Z := if x =? 0 then 0 else 1.

Arguments u16 : simpl never.
Arguments u32 : simpl never.
Arguments s8 : simpl never.

(** ** What the missing headers declare

    [motorBldc.h] and [mpwm.h] are not part of the sources: the values of
    their enumerators and macros are taken as parameters. *)

Class Header : Type := {
  BLDC_STOPPED : Z;
  BLDC_STARTING : Z;
  BLDC_RUNNING : Z;
  BLDC_LOCKED : Z;
  BLDC_POS : Z;
  BLDC_NEG : Z;
  BLDC_SENSORLESS : Z;
  BLDC_HALL : Z;
  BLDC_MIN_DUTY_CYCLE : Z;
  MPWM_PH_A : Z;
  MPWM_PH_B : Z;
  MPWM_PH_C : Z;
  MPWM_DORMANT : Z;
  MPWM_HI_STATE : Z
}.

(** The labels of one [switch] are pairwise distinct (the compiler rejects
    duplicates), and the two directions differ. *)
Definition header_wf (h : Header) : Prop :=
  NoDup [BLDC_LOCKED; BLDC_STOPPED; BLDC_STARTING; BLDC_RUNNING]
  /\ NoDup [BLDC_SENSORLESS; BLDC_HALL]
  /\ NoDup [MPWM_PH_A; MPWM_PH_B; MPWM_PH_C]
  /\ BLDC_POS <> BLDC_NEG.

(** One admissible choice of values, used to run the model. *)
Definition sample_header : Header := {|
  BLDC_STOPPED := 0; BLDC_STARTING := 1; BLDC_RUNNING := 2; BLDC_LOCKED := 3;
  BLDC_POS := 1; BLDC_NEG := 0;
  BLDC_SENSORLESS := 0; BLDC_HALL := 1;
  BLDC_MIN_DUTY_CYCLE := 3277;
  MPWM_PH_A := 0; MPWM_PH_B := 1; MPWM_PH_C := 2;
  MPWM_DORMANT := 0; MPWM_HI_STATE := 1
|}.

(** ** Data *)

(** Target of [dormantPhasePtr]: one of the three sampled-voltage fields
    of the motor itself. *)
Inductive phase_field : Type := FieldPhaseA | FieldPhaseB | FieldPhaseC.

Record _bldc_motor : Type := mk_motor {
  state : Z;                      (* uint8_t *)
  sector : Z;                     (* int8_t *)
  dutyCycle : Z;                  (* uint16_t *)
  startTimeAbs : Z;               (* uint32_t *)
  startCommutationTimeAbs : Z;    (* uint32_t *)
  lockUntilTimeAbs : Z;           (* uint32_t *)
  phaseA : Z;                     (* uint16_t *)
  phaseB : Z;
  phaseC : Z;
  dormantPhasePtr : option phase_field;   (* None is NULL *)
  direction : Z;
  sensor : Z;
  motor_hallToSector : list Z     (* uint8_t [8] *)
}.

Record _bldc_motor_command : Type := mk_command {
  cmd_direction : Z;
  cmd_dutyCycle : Z
}.

(** One call of [MPWM_setPhaseDutyCycle (phase, mode, duty)]. *)
Record pwm_call : Type := mk_pwm {
  pwm_phase : Z;
  pwm_mode : Z;
  pwm_duty : Z
}.

Inductive adc_channel : Type := ADC_PH_A | ADC_PH_B | ADC_PH_C | ADC_V_BUS.

(** The inputs of the hardware layer.  Every read of an input is numbered;
    the oracle gives the value the n-th read returns. *)
Record Env : Type := mk_env {
  MSTMR_value : nat -> Z;
  GPIO_value : nat -> Z -> bool;          (* pin of port B *)
  ADC_value : nat -> adc_channel -> Z
}.

(** The peripherals as the file drives them. *)
Record World : Type := mk_world {
  reads : nat;                    (* inputs read so far *)
  pwm_calls : list pwm_call;      (* oldest first *)
  pwm_freq : option Z;
  hall_pins_input : bool;
  adc1_handler : bool             (* BLDC_adcInterrupt registered *)
}.

Record Sys : Type := mk_sys {
  BLDC_motor : _bldc_motor;
  BLDC_command : _bldc_motor_command;
  hallTableUtilized : Z;
  world : World
}.

(** ** The monad *)

Definition M (A : Type) : Type := Sys -> option (A * Sys).

Definition ret {A} (a : A) : M A := fun s => Some (a, s).
Definition bind {A B} (c : M A) (k : A -> M B) : M B :=
  fun s => match c s with
           | Some (a, s') => k a s'
           | None => None
           end.
Definition undefined {A} : M A := fun _ => None.

Declare Scope c_scope.
Delimit Scope c_scope with C.
Notation "x <- c ;; k" := (bind c (fun x => k))
  (at level 61, c at next level, right associativity) : c_scope.
Notation "c ;; k" := (bind c (fun _ => k))
  (at level 61, right associativity) : c_scope.
Local Open Scope c_scope.

Definition exec (c : M unit) (s : Sys) : option Sys :=
  match c s with Some (_, s') => Some s' | None => None end.

Definition motor : M _bldc_motor := fun s => Some (BLDC_motor s, s).
Definition modify_motor (f : _bldc_motor -> _bldc_motor) : M unit :=
  fun s => Some (tt, mk_sys (f (BLDC_motor s)) (BLDC_command s)
                            (hallTableUtilized s) (world s)).
Definition modify_command (f : _bldc_motor_command -> _bldc_motor_command)
  : M unit :=
  fun s => Some (tt, mk_sys (BLDC_motor s) (f (BLDC_command s))
                            (hallTableUtilized s) (world s)).
Definition modify_world (f : World -> World) : M unit :=
  fun s => Some (tt, mk_sys (BLDC_motor s) (BLDC_command s)
                            (hallTableUtilized s) (f (world s))).

(** Field updates of [BLDC_motor]. *)
Definition set_state v m := mk_motor v (sector m) (dutyCycle m) (startTimeAbs m)
  (startCommutationTimeAbs m) (lockUntilTimeAbs m) (phaseA m) (phaseB m)
  (phaseC m) (dormantPhasePtr m) (direction m) (sensor m) (motor_hallToSector m).
Definition set_sector v m := mk_motor (state m) v (dutyCycle m) (startTimeAbs m)
  (startCommutationTimeAbs m) (lockUntilTimeAbs m) (phaseA m) (phaseB m)
  (phaseC m) (dormantPhasePtr m) (direction m) (sensor m) (motor_hallToSector m).
Definition set_dutyCycle v m := mk_motor (state m) (sector m) v (startTimeAbs m)
  (startCommutationTimeAbs m) (lockUntilTimeAbs m) (phaseA m) (phaseB m)
  (phaseC m) (dormantPhasePtr m) (direction m) (sensor m) (motor_hallToSector m).
Definition set_startTimeAbs v m := mk_motor (state m) (sector m) (dutyCycle m) v
  (startCommutationTimeAbs m) (lockUntilTimeAbs m) (phaseA m) (phaseB m)
  (phaseC m) (dormantPhasePtr m) (direction m) (sensor m) (motor_hallToSector m).
Definition set_startCommutationTimeAbs v m := mk_motor (state m) (sector m)
  (dutyCycle m) (startTimeAbs m) v (lockUntilTimeAbs m) (phaseA m) (phaseB m)
  (phaseC m) (dormantPhasePtr m) (direction m) (sensor m) (motor_hallToSector m).
Definition set_phases a b c m := mk_motor (state m) (sector m) (dutyCycle m)
  (startTimeAbs m) (startCommutationTimeAbs m) (lockUntilTimeAbs m) a b c
  (dormantPhasePtr m) (direction m) (sensor m) (motor_hallToSector m).
Definition set_dormantPhasePtr v m := mk_motor (state m) (sector m) (dutyCycle m)
  (startTimeAbs m) (startCommutationTimeAbs m) (lockUntilTimeAbs m) (phaseA m)
  (phaseB m) (phaseC m) v (direction m) (sensor m) (motor_hallToSector m).
Definition set_direction v m := mk_motor (state m) (sector m) (dutyCycle m)
  (startTimeAbs m) (startCommutationTimeAbs m) (lockUntilTimeAbs m) (phaseA m)
  (phaseB m) (phaseC m) (dormantPhasePtr m) v (sensor m) (motor_hallToSector m).
Definition set_sensor v m := mk_motor (state m) (sector m) (dutyCycle m)
  (startTimeAbs m) (startCommutationTimeAbs m) (lockUntilTimeAbs m) (phaseA m)
  (phaseB m) (phaseC m) (dormantPhasePtr m) (direction m) v (motor_hallToSector m).
Definition set_hallToSector v m := mk_motor (state m) (sector m) (dutyCycle m)
  (startTimeAbs m) (startCommutationTimeAbs m) (lockUntilTimeAbs m) (phaseA m)
  (phaseB m) (phaseC m) (dormantPhasePtr m) (direction m) (sensor m) v.

(** [a[i]]: defined only inside the array. *)
Definition index (a : list Z) (i : Z) : option Z :=
  if i <? 0 then None else nth_error a (Z.to_nat i).

Definition load (a : list Z) (i : Z) : M Z :=
  match index a i with
  | Some v => ret v
  | None => undefined
  end.

(** [*p] for a pointer into the motor's own sampled voltages. *)
Definition deref (p : option phase_field) : M Z :=
  match p with
  | Some FieldPhaseA => m <- motor ;; ret (phaseA m)
  | Some FieldPhaseB => m <- motor ;; ret (phaseB m)
  | Some FieldPhaseC => m <- motor ;; ret (phaseC m)
  | None => undefined
  end.

(** The globals as the C start-up code leaves them: [BLDC_motor] and
    [BLDC_command] zeroed, [hallTableUtilized] at its initialiser. *)
Definition boot : Sys := {|
  BLDC_motor := mk_motor 0 0 0 0 0 0 0 0 0 None 0 0 [0;0;0;0;0;0;0;0];
  BLDC_command := mk_command 0 0;
  hallTableUtilized := 0;
  world := mk_world 0 [] None false false
|}.

(** ** The static tables *)

(** The twelve candidate translations from Hall code to sector. *)
Definition hallToSector : list (list Z) :=
  [ [6;1;3;2;5;0;4;6];
    [6;0;2;1;4;5;3;6];
    [6;5;1;0;3;4;2;6];
    [6;4;0;5;2;3;1;6];
    [6;3;5;4;1;2;0;6];
    [6;2;4;3;0;1;5;6];
    [6;4;2;3;0;5;1;6];
    [6;3;1;2;5;4;0;6];
    [6;2;0;1;4;3;5;6];
    [6;1;5;0;3;2;4;6];
    [6;0;4;5;2;1;3;6];
    [6;5;3;4;1;0;2;6] ].

Definition index2 (t : list (list Z)) (i j : Z) : option Z :=
  if i <? 0 then None
  else match nth_error t (Z.to_nat i) with
       | Some row => index row j
       | None => None
       end.

(** The operations an application and the ADC hardware can invoke once
    [BLDC_initMotor] has run. *)
Inductive op : Type :=
| OpStartMotor
| OpStopMotor
| OpCommandDutyCycle (dutyCycle : Z)
| OpCommandDirection (direction : Z)
| OpGetMotorState
| OpAdcInterrupt.

Section Program.

Context {hdr : Header}.
Variable env : Env.

Definition hiPhaseTable : list Z :=
  [MPWM_PH_A; MPWM_PH_A; MPWM_PH_B; MPWM_PH_B; MPWM_PH_C; MPWM_PH_C].
Definition loPhaseTable : list Z :=
  [MPWM_PH_B; MPWM_PH_C; MPWM_PH_C; MPWM_PH_A; MPWM_PH_A; MPWM_PH_B].
Definition dormantPhaseTable : list Z :=
  [MPWM_PH_C; MPWM_PH_B; MPWM_PH_A; MPWM_PH_C; MPWM_PH_B; MPWM_PH_A].

(** ** The hardware layer *)

Definition next_read (w : World) : World :=
  mk_world (S (reads w)) (pwm_calls w) (pwm_freq w) (hall_pins_input w)
           (adc1_handler w).

(** [uint32_t MSTMR_getMilliSeconds (void)] *)
Definition MSTMR_getMilliSeconds : M Z :=
  fun s => Some (u32 (MSTMR_value env (reads (world s))),
                 mk_sys (BLDC_motor s) (BLDC_command s) (hallTableUtilized s)
                        (next_read (world s))).

(** [GPIO_readInput (GPIO_PORT_B, pin)], a level: 0 or 1. *)
Definition GPIO_readInput (pin : Z) : M Z :=
  fun s => Some (Z.b2z (GPIO_value env (reads (world s)) pin),
                 mk_sys (BLDC_motor s) (BLDC_command s) (hallTableUtilized s)
                        (next_read (world s))).

(** [uint16_t ADC_getVoltage (channel)] *)
Definition ADC_getVoltage (ch : adc_channel) : M Z :=
  fun s => Some (u16 (ADC_value env (reads (world s)) ch),
                 mk_sys (BLDC_motor s) (BLDC_command s) (hallTableUtilized s)
                        (next_read (world s))).

Definition MPWM_setPhaseDutyCycle (phase mode duty : Z) : M unit :=
  modify_world (fun w =>
    mk_world (reads w) (pwm_calls w ++ [mk_pwm phase mode duty]) (pwm_freq w)
             (hall_pins_input w) (adc1_handler w)).

Definition MPWM_initMotorPwm : M unit :=
  modify_world (fun w =>
    mk_world (reads w) (pwm_calls w) None (hall_pins_input w) (adc1_handler w)).

Definition MPWM_setMotorPwmFreq (f : Z) : M unit :=
  modify_world (fun w =>
    mk_world (reads w) (pwm_calls w) (Some f) (hall_pins_input w)
             (adc1_handler w)).

Definition GPIO_pinSetup_hall : M unit :=
  modify_world (fun w =>
    mk_world (reads w) (pwm_calls w) (pwm_freq w) true (adc1_handler w)).

Definition ADC_initAdc1Interrupt : M unit :=
  modify_world (fun w =>
    mk_world (reads w) (pwm_calls w) (pwm_freq w) (hall_pins_input w) true).

(** ** The functions of motorBldc.c *)

(** The three Hall lines sampled into a 3-bit code. *)
Definition read_hallValue : M Z :=
  b0 <- GPIO_readInput 0 ;;
  b1 <- GPIO_readInput 1 ;;
  b2 <- GPIO_readInput 2 ;;
  ret (0 + u16 b0 + Z.shiftl (u16 b1) 1 + Z.shiftl (u16 b2) 2).

Definition BLDC_commandDutyCycle (d : Z) : M unit :=
  modify_command (fun c => mk_command (cmd_direction c) (u16 d)).

(** The parameter is a [bool]: the argument is converted on the call. *)
Definition BLDC_commandDirection (d : Z) : M unit :=
  modify_command (fun c => mk_command (c_bool d) (cmd_dutyCycle c)).

Definition BLDC_stopMotor : M unit :=
  MPWM_setPhaseDutyCycle MPWM_PH_A MPWM_DORMANT 0 ;;
  MPWM_setPhaseDutyCycle MPWM_PH_B MPWM_DORMANT 0 ;;
  MPWM_setPhaseDutyCycle MPWM_PH_C MPWM_DORMANT 0 ;;
  modify_motor (set_state BLDC_STOPPED).

(** The loop copying row [hallTableUtilized] into the motor's own table. *)
Fixpoint load_table (n : nat) (i : Z) : M unit :=
  match n with
  | O => ret tt
  | S n' =>
      s <- (fun s => Some (s, s)) ;;
      v <- (match index2 hallToSector (hallTableUtilized s) i with
            | Some v => ret v
            | None => undefined
            end) ;;
      m <- motor ;;
      (if (0 <=? i) && (i <? Z.of_nat (length (motor_hallToSector m)))
       then modify_motor (fun m =>
              set_hallToSector
                (firstn (Z.to_nat i) (motor_hallToSector m) ++ [v]
                 ++ skipn (S (Z.to_nat i)) (motor_hallToSector m)) m)
       else undefined) ;;
      load_table n' (i + 1)
  end.

Definition BLDC_initPositionSensors : M unit :=
  GPIO_pinSetup_hall ;;
  hallValue <- read_hallValue ;;
  if negb (hallValue =? 0) && negb (hallValue =? 7)
  then modify_motor (set_sensor BLDC_HALL) ;; load_table 8 0
  else ret tt.

Definition BLDC_determineSector : M unit :=
  m <- motor ;;
  if sensor m =? BLDC_SENSORLESS then ret tt
  else if sensor m =? BLDC_HALL then
    hallValue <- read_hallValue ;;
    m <- motor ;;
    v <- load (motor_hallToSector m) hallValue ;;
    modify_motor (set_sector (s8 v))
  else ret tt.

Definition BLDC_commutate : M unit :=
  m <- motor ;;
  (if direction m =? BLDC_POS then
     modify_motor (set_sector (s8 (sector m + 1))) ;;
     m <- motor ;;
     if sector m >? 5 then modify_motor (set_sector 0) else ret tt
   else
     modify_motor (set_sector (s8 (sector m - 1))) ;;
     m <- motor ;;
     if sector m <? 0 then modify_motor (set_sector 5) else ret tt) ;;
  m <- motor ;;
  let halfDutyCycle := u16 (Z.shiftr (dutyCycle m) 1) in
  let highSideDutyCycle := u16 (32767 + halfDutyCycle) in
  let lowSideDutyCycle := u16 (32767 - halfDutyCycle) in
  d <- load dormantPhaseTable (sector m) ;;
  MPWM_setPhaseDutyCycle d MPWM_DORMANT (dutyCycle m) ;;
  h <- load hiPhaseTable (sector m) ;;
  MPWM_setPhaseDutyCycle h MPWM_HI_STATE highSideDutyCycle ;;
  l <- load loPhaseTable (sector m) ;;
  MPWM_setPhaseDutyCycle l MPWM_HI_STATE lowSideDutyCycle ;;
  d <- load dormantPhaseTable (sector m) ;;
  (if d =? MPWM_PH_A then modify_motor (set_dormantPhasePtr (Some FieldPhaseA))
   else if d =? MPWM_PH_B then
     modify_motor (set_dormantPhasePtr (Some FieldPhaseB))
   else if d =? MPWM_PH_C then
     modify_motor (set_dormantPhasePtr (Some FieldPhaseC))
   else modify_motor (set_dormantPhasePtr None)) ;;
  m <- motor ;;
  if state m =? BLDC_STARTING then
    t <- MSTMR_getMilliSeconds ;;
    modify_motor (set_startCommutationTimeAbs t)
  else ret tt.

Definition BLDC_startMotor : M unit :=
  m <- motor ;;
  if state m =? BLDC_STOPPED then
    modify_motor (set_sector 0) ;;
    modify_motor (set_state BLDC_STARTING) ;;
    t <- MSTMR_getMilliSeconds ;;
    modify_motor (set_startTimeAbs t) ;;
    modify_motor (set_dutyCycle (u16 BLDC_MIN_DUTY_CYCLE)) ;;
    s <- (fun s => Some (s, s)) ;;
    modify_motor (set_direction (cmd_direction (BLDC_command s))) ;;
    BLDC_determineSector ;;
    BLDC_commutate
  else ret tt.

Definition BLDC_getMotorState : M Z :=
  m <- motor ;; ret (state m).

Definition BLDC_adcInterrupt : M unit :=
  a <- ADC_getVoltage ADC_PH_A ;;
  b <- ADC_getVoltage ADC_PH_B ;;
  c <- ADC_getVoltage ADC_PH_C ;;
  modify_motor (set_phases a b c) ;;
  bus <- ADC_getVoltage ADC_V_BUS ;;
  let neutralVoltage := u16 (Z.shiftr bus 1) in
  m <- motor ;;
  if state m =? BLDC_LOCKED then
    now <- MSTMR_getMilliSeconds ;;
    m <- motor ;;
    if now >? lockUntilTimeAbs m then modify_motor (set_state BLDC_STOPPED)
    else ret tt
  else if state m =? BLDC_STOPPED then ret tt
  else if state m =? BLDC_STARTING then
    (if Z.land (sector m) 1 =? 1 then
       v <- deref (dormantPhasePtr m) ;;
       if v <? neutralVoltage then BLDC_commutate else ret tt
     else
       v <- deref (dormantPhasePtr m) ;;
       if v >? neutralVoltage then BLDC_commutate else ret tt) ;;
    m <- motor ;;
    now <- MSTMR_getMilliSeconds ;;
    if u32 (startCommutationTimeAbs m + 25) <? now then BLDC_commutate
    else ret tt
  else if state m =? BLDC_RUNNING then ret tt
  else ret tt.

Definition BLDC_initMotor : M unit :=
  MPWM_initMotorPwm ;;
  MPWM_setMotorPwmFreq 16000 ;;
  BLDC_stopMotor ;;
  BLDC_commandDirection BLDC_POS ;;
  BLDC_initPositionSensors ;;
  ADC_initAdc1Interrupt.

(** ** Runs of the program *)

Definition run_op (o : op) : M unit :=
  match o with
  | OpStartMotor => BLDC_startMotor
  | OpStopMotor => BLDC_stopMotor
  | OpCommandDutyCycle d => BLDC_commandDutyCycle d
  | OpCommandDirection d => BLDC_commandDirection d
  | OpGetMotorState => _ <- BLDC_getMotorState ;; ret tt
  | OpAdcInterrupt => BLDC_adcInterrupt
  end.

Fixpoint run_ops (l : list op) : M unit :=
  match l with
  | [] => ret tt
  | o :: l' => run_op o ;; run_ops l'
  end.

Fixpoint repeat_commutate (n : nat) : M unit :=
  match n with
  | O => ret tt
  | S n' => BLDC_commutate ;; repeat_commutate n'
  end.

(** ** One commutation in closed form *)

(** The sector after the advance-and-wrap at the head of [BLDC_commutate]. *)
Definition advance (dir s : Z) : Z :=
  if dir =? BLDC_POS
  then (if s8 (s + 1) >? 5 then 0 else s8 (s + 1))
  else (if s8 (s - 1) <? 0 then 5 else s8 (s - 1)).

(** The [switch] that records the dormant phase. *)
Definition dormant_field (d : Z) : option phase_field :=
  if d =? MPWM_PH_A then Some FieldPhaseA
  else if d =? MPWM_PH_B then Some FieldPhaseB
  else if d =? MPWM_PH_C then Some FieldPhaseC
  else None.

Definition halfDuty (duty : Z) : Z := u16 (Z.shiftr duty 1).
Definition highSideDuty (duty : Z) : Z := u16 (32767 + halfDuty duty).
Definition lowSideDuty (duty : Z) : Z := u16 (32767 - halfDuty duty).

(** The three PWM calls of a commutation: dormant, high and low phase. *)
Definition commutation_calls (duty d h l : Z) : list pwm_call :=
  [ mk_pwm d MPWM_DORMANT duty;
    mk_pwm h MPWM_HI_STATE (highSideDuty duty);
    mk_pwm l MPWM_HI_STATE (lowSideDuty duty) ].

Definition commutate_post (s : Sys) (d h l : Z) : Sys :=
  let m := BLDC_motor s in
  let w := world s in
  let m1 := set_dormantPhasePtr (dormant_field d)
              (set_sector (advance (direction m) (sector m)) m) in
  let w1 := mk_world (reads w)
              (pwm_calls w ++ commutation_calls (dutyCycle m) d h l)
              (pwm_freq w) (hall_pins_input w) (adc1_handler w) in
  if state m =? BLDC_STARTING
  then mk_sys (set_startCommutationTimeAbs (u32 (MSTMR_value env (reads w))) m1)
              (BLDC_command s) (hallTableUtilized s) (next_read w1)
  else mk_sys m1 (BLDC_command s) (hallTableUtilized s) w1.

(** ** The other functions in closed form *)

Definition tick (s : Sys) : Sys :=
  mk_sys (BLDC_motor s) (BLDC_command s) (hallTableUtilized s)
         (next_read (world s)).

Definition add_calls (l : list pwm_call) (s : Sys) : Sys :=
  mk_sys (BLDC_motor s) (BLDC_command s) (hallTableUtilized s)
         (mk_world (reads (world s)) (pwm_calls (world s) ++ l)
                   (pwm_freq (world s)) (hall_pins_input (world s))
                   (adc1_handler (world s))).

Definition with_motor (f : _bldc_motor -> _bldc_motor) (s : Sys) : Sys :=
  mk_sys (f (BLDC_motor s)) (BLDC_command s) (hallTableUtilized s) (world s).

(** The Hall code sampled by three reads starting at read [r]. *)
Definition hall_code (r : nat) : Z :=
  Z.b2z (GPIO_value env r 0)
  + 2 * Z.b2z (GPIO_value env (S r) 1)
  + 4 * Z.b2z (GPIO_value env (S (S r)) 2).

Definition stop_calls : list pwm_call :=
  [ mk_pwm MPWM_PH_A MPWM_DORMANT 0;
    mk_pwm MPWM_PH_B MPWM_DORMANT 0;
    mk_pwm MPWM_PH_C MPWM_DORMANT 0 ].

(** The head of [BLDC_adcInterrupt]: four conversions read, the three
    phase voltages stored. *)
Definition sampled (s : Sys) : Sys :=
  let r := reads (world s) in
  tick (tick (tick (tick
    (with_motor (set_phases (u16 (ADC_value env r ADC_PH_A))
                            (u16 (ADC_value env (S r) ADC_PH_B))
                            (u16 (ADC_value env (S (S r)) ADC_PH_C))) s)))).

Definition neutralVoltage (s : Sys) : Z :=
  u16 (Z.shiftr (u16 (ADC_value env (3 + reads (world s)) ADC_V_BUS)) 1).

Definition field_value (p : phase_field) (m : _bldc_motor) : Z :=
  match p with
  | FieldPhaseA => phaseA m
  | FieldPhaseB => phaseB m
  | FieldPhaseC => phaseC m
  end.

(** The zero-crossing test of the [BLDC_STARTING] case, on the state with
    the fresh samples. *)
Definition zero_crossing (p : phase_field) (neutral : Z) (s : Sys) : bool :=
  if Z.land (sector (BLDC_motor s)) 1 =? 1
  then field_value p (BLDC_motor s) <? neutral
  else field_value p (BLDC_motor s) >? neutral.

(** The stall test, with the clock value it reads. *)
Definition stalled (s : Sys) : bool :=
  u32 (startCommutationTimeAbs (BLDC_motor s) + 25)
  <? u32 (MSTMR_value env (reads (world s))).

(** The state [BLDC_startMotor] hands to [BLDC_determineSector]. *)
Definition start_entry (s : Sys) : Sys :=
  tick (with_motor (fun m =>
    set_direction (cmd_direction (BLDC_command s))
      (set_dutyCycle (u16 BLDC_MIN_DUTY_CYCLE)
        (set_startTimeAbs (u32 (MSTMR_value env (reads (world s))))
          (set_state BLDC_STARTING (set_sector 0 m))))) s).

(** ** The specification's side *)

(** The role table as the specification words it:
    sector -> (high, low, dormant). *)
Definition spec_phase_roles (s : Z) : option (Z * Z * Z) :=
  match s with
  | 0 => Some (MPWM_PH_A, MPWM_PH_B, MPWM_PH_C)
  | 1 => Some (MPWM_PH_A, MPWM_PH_C, MPWM_PH_B)
  | 2 => Some (MPWM_PH_B, MPWM_PH_C, MPWM_PH_A)
  | 3 => Some (MPWM_PH_B, MPWM_PH_A, MPWM_PH_C)
  | 4 => Some (MPWM_PH_C, MPWM_PH_A, MPWM_PH_B)
  | 5 => Some (MPWM_PH_C, MPWM_PH_B, MPWM_PH_A)
  | _ => None
  end.

(** The drive a phase is left with: the latest call that programmed it. *)
Definition phase_output (calls : list pwm_call) (ph : Z) : option (Z * Z) :=
  match find (fun c => pwm_phase c =? ph) (rev calls) with
  | Some c => Some (pwm_mode c, pwm_duty c)
  | None => None
  end.

(** The calls issued between two states. *)
Definition calls_since (s s' : Sys) : list pwm_call :=
  skipn (length (pwm_calls (world s))) (pwm_calls (world s')).

Definition sector_in_range (s : Sys) : Prop :=
  0 <= sector (BLDC_motor s) <= 5.

(** The motor's own Hall table: eight entries, each a sector or the
    sentinel 6. *)
Definition table_ok (s : Sys) : Prop :=
  length (motor_hallToSector (BLDC_motor s)) = 8%nat
  /\ Forall (fun v => 0 <= v <= 6) (motor_hallToSector (BLDC_motor s)).

(** What holds of the motor between two operations. *)
Definition motor_inv (s : Sys) : Prop :=
  sector_in_range s
  /\ table_ok s
  /\ (state (BLDC_motor s) = BLDC_STARTING ->
      dormantPhasePtr (BLDC_motor s) <> None).

Definition preserves_sector_range (c : M unit) : Prop :=
  forall s s', table_ok s -> sector_in_range s ->
               exec c s = Some s' -> sector_in_range s'.

End Program.

(** ** Concrete runs

    Values used to run the model: the enumerators of [sample_header], a
    Hall motor wired for row 0 of the table, and a few hardware
    behaviours. *)

Definition row0 : list Z := [6;1;3;2;5;0;4;6].

(** A motor in state [st], sector [se], turning in direction [dir], with
    phase C dormant and the last commutation stamped at [stamp]. *)
Definition sample_motor (st se dir stamp lock : Z) : _bldc_motor :=
  mk_motor st se 3277 1000 stamp lock 0 0 0 (Some FieldPhaseC) dir 1 row0.

Definition sample_sys (st se dir stamp lock : Z) : Sys :=
  mk_sys (sample_motor st se dir stamp lock) (mk_command 1 5000) 0
         (mk_world 10 [] (Some 16000) true true).

(** Hall code 2 on the pins, the dormant phase C above the neutral
    voltage, the clock at 2000 ms. *)
Definition steady_env : Env :=
  mk_env (fun _ => 2000)
         (fun _ pin => pin =? 1)
         (fun _ ch => match ch with
                      | ADC_V_BUS => 60000
                      | ADC_PH_C => 40000
                      | _ => 20000
                      end).

(** Hall code 2 while [BLDC_initMotor] samples the pins (reads 0 to 2),
    all three lines low ever after. *)
Definition drop_env : Env :=
  mk_env (fun _ => 2000)
         (fun n pin => (n <? 3)%nat && (pin =? 1))
         (fun _ _ => 0).

(** The system [BLDC_initMotor] leaves under [drop_env]: stopped, Hall
    sensor detected, row 0 loaded. *)
Definition hall_ready : Sys :=
  mk_sys (mk_motor 0 0 0 0 0 0 0 0 0 None 0 1 row0)
         (mk_command 1 0) 0
         (mk_world 3 [mk_pwm 0 0 0; mk_pwm 1 0 0; mk_pwm 2 0 0]
                   (Some 16000) true true).

(** The clock 10 ms before the 32-bit millisecond counter wraps, and not
    moving during the event; dormant phase C above the neutral voltage. *)
Definition wrap_env : Env :=
  mk_env (fun _ => 4294967286)
         (fun _ pin => pin =? 1)
         (fun _ ch => match ch with
                      | ADC_V_BUS => 60000
                      | ADC_PH_C => 40000
                      | _ => 20000
                      end).

(** The clock 5 ms after the wrap; dormant phase C below the neutral
    voltage. *)
Definition wrapped_env : Env :=
  mk_env (fun _ => 5)
         (fun _ pin => pin =? 1)
         (fun _ ch => match ch with
                      | ADC_V_BUS => 60000
                      | _ => 20000
                      end).

Definition starting_at_0 : Sys := sample_sys 1 0 1 1990 0.
Definition starting_at_6 : Sys := sample_sys 1 6 1 1990 0.
Definition locked_until_2000 : Sys := sample_sys 3 2 1 1990 2000.

(** Last commutation 6 ms before the event, 16 ms before the wrap. *)
Definition before_wrap : Sys := sample_sys 1 0 1 4294967280 0.
(** Last commutation 30 ms before the wrap, 35 ms before the event. *)
Definition after_wrap : Sys := sample_sys 1 0 1 4294967266 0.

(** The sectors after 0, 1, ..., n-1 commutations from sector 0. *)
Definition sectors_visited (dir : Z) (n : nat) : list (option Z) :=
  map (fun k =>
         option_map (fun s => sector (BLDC_motor s))
           (exec (@repeat_commutate sample_header steady_env k)
                 (sample_sys 1 0 dir 1990 0)))
      (seq 0 n).

(** ** Further definitions: the rest of the file *)

(** [n] sampling events in a row. *)
Fixpoint repeat_adcInterrupt {hdr : Header} (env : Env) (n : nat) : M unit :=
  match n with
  | O => ret tt
  | S n' => BLDC_adcInterrupt env ;; repeat_adcInterrupt env n'
  end.

(** The dormant column of the comment table in [BLDC_commutate], as the
    sampled-voltage field it stands for. *)
Definition dormant_of_sector (s : Z) : phase_field :=
  match s with
  | 0 | 3 => FieldPhaseC
  | 1 | 4 => FieldPhaseB
  | _ => FieldPhaseA
  end.

(** Two Hall codes that differ in exactly one of the three lines. *)
Definition one_line_apart (c1 c2 : Z) : bool :=
  let x := Z.lxor c1 c2 in (x =? 1) || (x =? 2) || (x =? 4).

(** What neither the sampling handler nor a commutation touches. *)
Definition same_settings (s s' : Sys) : Prop :=
  dutyCycle (BLDC_motor s') = dutyCycle (BLDC_motor s)
  /\ direction (BLDC_motor s') = direction (BLDC_motor s)
  /\ sensor (BLDC_motor s') = sensor (BLDC_motor s)
  /\ motor_hallToSector (BLDC_motor s') = motor_hallToSector (BLDC_motor s)
  /\ startTimeAbs (BLDC_motor s') = startTimeAbs (BLDC_motor s)
  /\ lockUntilTimeAbs (BLDC_motor s') = lockUntilTimeAbs (BLDC_motor s)
  /\ BLDC_command s' = BLDC_command s
  /\ hallTableUtilized s' = hallTableUtilized s.

(** The three phase voltages of [s'] are the conversions read by the event
    that started in [s]. *)
Definition fresh_phases (env : Env) (s s' : Sys) : Prop :=
  phaseA (BLDC_motor s') = u16 (ADC_value env (reads (world s)) ADC_PH_A)
  /\ phaseB (BLDC_motor s')
     = u16 (ADC_value env (S (reads (world s))) ADC_PH_B)
  /\ phaseC (BLDC_motor s')
     = u16 (ADC_value env (S (S (reads (world s)))) ADC_PH_C).

(** The booted globals with [hallTableUtilized] set past the last row. *)
Definition boot_bad_index : Sys :=
  mk_sys (BLDC_motor boot) (BLDC_command boot) 12 (world boot).


(** * Properties *)

Section Proofs.

Context {hdr : Header}.
Variable env : Env.

(** ** Helper lemmas *)

Lemma app_calls (l : list pwm_call) a b c :
  ((l ++ [a]) ++ [b]) ++ [c] = l ++ [a; b; c].
Proof. now rewrite <- !app_assoc. Qed.

(** Symbolic execution of the monad: unfold the plumbing and the record
    updates, never the arithmetic. *)
Ltac run :=
  unfold exec, bind, load, MPWM_setPhaseDutyCycle, MSTMR_getMilliSeconds,
    ADC_getVoltage, GPIO_readInput, ret, undefined, motor, modify_motor,
    modify_command, modify_world, with_motor, tick, add_calls, next_read in *;
  cbn [BLDC_motor BLDC_command hallTableUtilized world
       state sector dutyCycle startTimeAbs startCommutationTimeAbs
       lockUntilTimeAbs phaseA phaseB phaseC dormantPhasePtr direction sensor
       motor_hallToSector cmd_direction cmd_dutyCycle
       reads pwm_calls pwm_freq hall_pins_input adc1_handler
       set_state set_sector set_dutyCycle set_startTimeAbs
       set_startCommutationTimeAbs set_phases set_dormantPhasePtr
       set_direction set_sensor set_hallToSector] in *.

Lemma BLDC_commutate_exec (s : Sys) (d h l : Z) :
  let s' := advance (direction (BLDC_motor s)) (sector (BLDC_motor s)) in
  index dormantPhaseTable s' = Some d ->
  index hiPhaseTable s' = Some h ->
  index loPhaseTable s' = Some l ->
  exec (BLDC_commutate env) s = Some (commutate_post env s d h l).
Proof.
  destruct s as [m c u w]; cbn zeta; cbn [BLDC_motor].
  unfold BLDC_commutate, commutate_post, dormant_field,
    commutation_calls, highSideDuty, lowSideDuty, halfDuty.
  unfold advance.
  intros Hd Hh Hl; run.
  destruct (direction m =? BLDC_POS); run.
  - destruct (s8 (sector m + 1) >? 5); run;
      rewrite Hd, Hh, Hl; run; rewrite app_calls;
      destruct (d =? MPWM_PH_A), (d =? MPWM_PH_B), (d =? MPWM_PH_C); run;
      destruct (state m =? BLDC_STARTING); reflexivity.
  - destruct (s8 (sector m - 1) <? 0); run;
      rewrite Hd, Hh, Hl; run; rewrite app_calls;
      destruct (d =? MPWM_PH_A), (d =? MPWM_PH_B), (d =? MPWM_PH_C); run;
      destruct (state m =? BLDC_STARTING); reflexivity.
Qed.

Lemma six_cases (s : Z) :
  0 <= s <= 5 -> s = 0 \/ s = 1 \/ s = 2 \/ s = 3 \/ s = 4 \/ s = 5.
Proof. lia. Qed.

Ltac by_sector H :=
  destruct (six_cases _ H) as [E | [E | [E | [E | [E | E]]]]]; rewrite E.

(** Inside [0,5] all three tables are defined and agree with the
    specification's role table. *)
Lemma tables_defined (s : Z) :
  0 <= s <= 5 ->
  exists d h l,
    index dormantPhaseTable s = Some d
    /\ index hiPhaseTable s = Some h
    /\ index loPhaseTable s = Some l
    /\ spec_phase_roles s = Some (h, l, d)
    /\ dormant_field d <> None.
Proof.
  intros H; unfold dormant_field.
  by_sector H; cbn; do 3 eexists; repeat split; try reflexivity;
    rewrite ?Z.eqb_refl;
    repeat match goal with
           | |- context [if ?b then _ else _] => destruct b
           end; discriminate.
Qed.

(** Outside [0,5] the dormant-phase table is not defined. *)
Lemma index_defined_range (s d : Z) :
  index dormantPhaseTable s = Some d -> 0 <= s <= 5.
Proof.
  unfold index. destruct (Z.ltb_spec s 0); [discriminate|].
  intros E. assert (Hn : (Z.to_nat s < 6)%nat).
  { apply (proj1 (nth_error_Some dormantPhaseTable (Z.to_nat s))).
    rewrite E. discriminate. }
  lia.
Qed.

Lemma s8_small (x : Z) : -128 <= x <= 127 -> s8 x = x.
Proof. intros H; unfold s8. rewrite Z.mod_small; lia. Qed.

Lemma advance_range (dir s : Z) :
  -1 <= s <= 6 -> 0 <= advance dir s <= 5.
Proof.
  intros H; unfold advance.
  rewrite !s8_small by lia.
  destruct (dir =? BLDC_POS).
  - destruct (Z.gtb_spec (s + 1) 5); lia.
  - destruct (Z.ltb_spec (s - 1) 0); lia.
Qed.

Lemma advance_pos (s : Z) :
  0 <= s <= 5 -> advance BLDC_POS s = (s + 1) mod 6.
Proof.
  intros H; unfold advance; rewrite Z.eqb_refl.
  by_sector H; reflexivity.
Qed.

Lemma advance_neg (dir s : Z) :
  dir <> BLDC_POS -> 0 <= s <= 5 -> advance dir s = (s + 5) mod 6.
Proof.
  intros Hd H; unfold advance.
  apply Z.eqb_neq in Hd; rewrite Hd.
  by_sector H; reflexivity.
Qed.

(** A commutation from a sector in [-1,6] is defined. *)
Lemma commutate_defined (s : Sys) :
  -1 <= sector (BLDC_motor s) <= 6 ->
  exists d h l,
    let s' := advance (direction (BLDC_motor s)) (sector (BLDC_motor s)) in
    exec (BLDC_commutate env) s = Some (commutate_post env s d h l)
    /\ index dormantPhaseTable s' = Some d
    /\ index hiPhaseTable s' = Some h
    /\ index loPhaseTable s' = Some l
    /\ spec_phase_roles s' = Some (h, l, d)
    /\ dormant_field d <> None.
Proof.
  intros H.
  destruct (tables_defined _ (advance_range (direction (BLDC_motor s)) _ H))
    as (d & h & l & Hd & Hh & Hl & Hr & Hf).
  exists d, h, l; cbn zeta.
  rewrite (BLDC_commutate_exec s d h l Hd Hh Hl). repeat split; assumption.
Qed.

Lemma commutate_post_sector s d h l :
  sector (BLDC_motor (commutate_post env s d h l))
  = advance (direction (BLDC_motor s)) (sector (BLDC_motor s)).
Proof.
  unfold commutate_post.
  destruct (state (BLDC_motor s) =? BLDC_STARTING); reflexivity.
Qed.

Lemma commutate_post_direction s d h l :
  direction (BLDC_motor (commutate_post env s d h l))
  = direction (BLDC_motor s).
Proof.
  unfold commutate_post.
  destruct (state (BLDC_motor s) =? BLDC_STARTING); reflexivity.
Qed.

Lemma commutate_post_state s d h l :
  state (BLDC_motor (commutate_post env s d h l)) = state (BLDC_motor s).
Proof.
  unfold commutate_post.
  destruct (state (BLDC_motor s) =? BLDC_STARTING); reflexivity.
Qed.

Lemma commutate_post_ptr s d h l :
  dormantPhasePtr (BLDC_motor (commutate_post env s d h l)) = dormant_field d.
Proof.
  unfold commutate_post.
  destruct (state (BLDC_motor s) =? BLDC_STARTING); reflexivity.
Qed.

Lemma commutate_post_calls s d h l :
  pwm_calls (world (commutate_post env s d h l))
  = pwm_calls (world s) ++ commutation_calls (dutyCycle (BLDC_motor s)) d h l.
Proof.
  unfold commutate_post.
  destruct (state (BLDC_motor s) =? BLDC_STARTING); reflexivity.
Qed.

Lemma commutate_post_table s d h l :
  motor_hallToSector (BLDC_motor (commutate_post env s d h l))
  = motor_hallToSector (BLDC_motor s).
Proof.
  unfold commutate_post.
  destruct (state (BLDC_motor s) =? BLDC_STARTING); reflexivity.
Qed.

Lemma commutate_post_frame s d h l :
  startTimeAbs (BLDC_motor (commutate_post env s d h l))
  = startTimeAbs (BLDC_motor s)
  /\ dutyCycle (BLDC_motor (commutate_post env s d h l))
     = dutyCycle (BLDC_motor s)
  /\ lockUntilTimeAbs (BLDC_motor (commutate_post env s d h l))
     = lockUntilTimeAbs (BLDC_motor s)
  /\ sensor (BLDC_motor (commutate_post env s d h l)) = sensor (BLDC_motor s)
  /\ BLDC_command (commutate_post env s d h l) = BLDC_command s.
Proof.
  unfold commutate_post.
  destruct (state (BLDC_motor s) =? BLDC_STARTING); repeat split.
Qed.

Lemma exec_bind {A} (c : M A) (k : A -> M unit) (s : Sys) :
  exec (bind c k) s
  = match c s with Some (a, s') => exec (k a) s' | None => None end.
Proof. unfold exec, bind. destruct (c s) as [[a s']|]; reflexivity. Qed.

Lemma exec_seq (c k : M unit) (s : Sys) :
  exec (c ;; k) s
  = match exec c s with Some s' => exec k s' | None => None end.
Proof. unfold exec, bind. destruct (c s) as [[[] s']|]; reflexivity. Qed.

Lemma calls_since_app (s s' : Sys) (l : list pwm_call) :
  pwm_calls (world s') = pwm_calls (world s) ++ l -> calls_since s s' = l.
Proof.
  intros E; unfold calls_since; rewrite E.
  rewrite skipn_app, skipn_all, Nat.sub_diag. reflexivity.
Qed.

(** Repeated commutation walks the sectors cyclically. *)
Lemma repeat_commutate_sector (n : nat) :
  forall s, 0 <= sector (BLDC_motor s) <= 5 ->
  exists s',
    exec (repeat_commutate env n) s = Some s'
    /\ direction (BLDC_motor s') = direction (BLDC_motor s)
    /\ (direction (BLDC_motor s) = BLDC_POS ->
        sector (BLDC_motor s') = (sector (BLDC_motor s) + Z.of_nat n) mod 6)
    /\ (direction (BLDC_motor s) <> BLDC_POS ->
        sector (BLDC_motor s') = (sector (BLDC_motor s) - Z.of_nat n) mod 6).
Proof.
  induction n as [|n IH]; intros s H.
  - exists s; cbn [repeat_commutate]; repeat split;
      intros _; rewrite ?Z.add_0_r, ?Z.sub_0_r, Z.mod_small; lia.
  - destruct (commutate_defined s) as (d & h & l & Hex & _); [lia|].
    cbn zeta in Hex. set (s1 := commutate_post env s d h l) in *.
    assert (Hs1 : sector (BLDC_motor s1)
                  = advance (direction (BLDC_motor s)) (sector (BLDC_motor s)))
      by apply commutate_post_sector.
    assert (Hd1 : direction (BLDC_motor s1) = direction (BLDC_motor s))
      by apply commutate_post_direction.
    destruct (IH s1) as (s' & Hrun & Hdir & Hp & Hn).
    { rewrite Hs1; apply advance_range; lia. }
    exists s'; cbn [repeat_commutate]; rewrite exec_seq, Hex.
    split; [exact Hrun|]. split; [congruence|]. split; intros Hd.
    + rewrite Hp by congruence. rewrite Hs1, Hd, advance_pos by lia.
      rewrite Zplus_mod_idemp_l. f_equal; lia.
    + rewrite Hn by congruence. rewrite Hs1, advance_neg by auto.
      rewrite Zminus_mod_idemp_l.
      replace (sector (BLDC_motor s) + 5 - Z.of_nat n)
        with (sector (BLDC_motor s) - Z.of_nat (S n) + 1 * 6) by lia.
      apply Z_mod_plus_full.
Qed.

(** ** The claims about [BLDC_commutate] *)

(** C5: from a sector in [0,5] one commutation moves the sector to
    [(sector+1) mod 6] under [BLDC_POS] and to [(sector+5) mod 6] under
    [BLDC_NEG]; hence from sector 0 the n-th commutation reaches sector
    [n mod 6] under [BLDC_POS] (0,1,2,3,4,5,0,...) and [(-n) mod 6] under
    [BLDC_NEG] (0,5,4,3,2,1,0,...), both with period 6. *)
Theorem commutate_sector_sequence (s : Sys) (n : nat) :
  header_wf hdr ->
  0 <= sector (BLDC_motor s) <= 5 ->
  (exists s1,
     exec (BLDC_commutate env) s = Some s1
     /\ (direction (BLDC_motor s) = BLDC_POS ->
         sector (BLDC_motor s1) = (sector (BLDC_motor s) + 1) mod 6)
     /\ (direction (BLDC_motor s) = BLDC_NEG ->
         sector (BLDC_motor s1) = (sector (BLDC_motor s) + 5) mod 6))
  /\ (sector (BLDC_motor s) = 0 ->
      exists sn,
        exec (repeat_commutate env n) s = Some sn
        /\ (direction (BLDC_motor s) = BLDC_POS ->
            sector (BLDC_motor sn) = Z.of_nat n mod 6)
        /\ (direction (BLDC_motor s) = BLDC_NEG ->
            sector (BLDC_motor sn) = (- Z.of_nat n) mod 6)
        /\ exists sn6,
             exec (repeat_commutate env (n + 6)) s = Some sn6
             /\ sector (BLDC_motor sn6) = sector (BLDC_motor sn)).
Proof.
  intros (_ & _ & _ & Hpn) H. split.
  - destruct (commutate_defined s) as (d & h & l & Hex & _); [lia|].
    eexists; split; [exact Hex|].
    rewrite commutate_post_sector. split; intros Hd; rewrite Hd.
    + apply advance_pos, H.
    + apply advance_neg; [congruence | exact H].
  - intros H0.
    destruct (repeat_commutate_sector n s H) as (sn & Hrun & _ & Hp & Hn).
    destruct (repeat_commutate_sector (n + 6) s H) as (sm & Hrun' & _ & Hp' & Hn').
    exists sn. split; [exact Hrun|]. rewrite H0 in *.
    split; [intros Hd; rewrite Hp by exact Hd; f_equal; lia|].
    split; [intros Hd; rewrite Hn by congruence; f_equal; lia|].
    exists sm. split; [exact Hrun'|].
    destruct (Z.eq_dec (direction (BLDC_motor s)) BLDC_POS) as [Hd|Hd].
    + rewrite Hp', Hp by exact Hd.
      replace (0 + Z.of_nat (n + 6)) with (0 + Z.of_nat n + 1 * 6) by lia.
      apply Z_mod_plus_full.
    + rewrite Hn', Hn by exact Hd.
      replace (0 - Z.of_nat (n + 6)) with (0 - Z.of_nat n + (-1) * 6) by lia.
      apply Z_mod_plus_full.
Qed.

(** C6: from a sector in [0,5], whatever the direction, a commutation
    programs the phases by the table 0->(A,B,C), 1->(A,C,B), 2->(B,C,A),
    3->(B,A,C), 4->(C,A,B), 5->(C,B,A) (high, low, dormant), read at the
    sector the commutation has just moved to: the dormant phase in mode
    dormant, the high and the low phase in drive mode; the triple is a
    permutation of the three phases without repeats. *)
Theorem commutate_phase_roles (s : Sys) :
  header_wf hdr ->
  0 <= sector (BLDC_motor s) <= 5 ->
  exists s' h l d,
    exec (BLDC_commutate env) s = Some s'
    /\ 0 <= sector (BLDC_motor s') <= 5
    /\ spec_phase_roles (sector (BLDC_motor s')) = Some (h, l, d)
    /\ calls_since s s'
       = [ mk_pwm d MPWM_DORMANT (dutyCycle (BLDC_motor s));
           mk_pwm h MPWM_HI_STATE (highSideDuty (dutyCycle (BLDC_motor s)));
           mk_pwm l MPWM_HI_STATE (lowSideDuty (dutyCycle (BLDC_motor s))) ]
    /\ dormantPhasePtr (BLDC_motor s') = dormant_field d
    /\ Permutation [h; l; d] [MPWM_PH_A; MPWM_PH_B; MPWM_PH_C]
    /\ NoDup [h; l; d].
Proof.
  intros (_ & _ & Hph & _) H.
  destruct (commutate_defined s) as (d & h & l & Hex & _ & _ & _ & Hr & _);
    [lia|].
  cbn zeta in Hex, Hr.
  exists (commutate_post env s d h l), h, l, d.
  split; [exact Hex|].
  rewrite commutate_post_sector, commutate_post_ptr.
  pose proof (advance_range (direction (BLDC_motor s))
                (sector (BLDC_motor s)) ltac:(lia)) as Ha.
  split; [exact Ha|]. split; [exact Hr|].
  split; [apply calls_since_app, commutate_post_calls|].
  split; [reflexivity|].
  destruct (six_cases _ Ha) as [E | [E | [E | [E | [E | E]]]]];
    rewrite E in Hr; cbn in Hr; injection Hr as <- <- <-; split;
    try (eapply Permutation_NoDup; [|exact Hph]);
    first [ apply Permutation_refl
          | apply perm_skip, perm_swap
          | apply perm_swap
          | eapply perm_trans; [apply perm_swap | apply perm_skip, perm_swap]
          | eapply perm_trans; [apply perm_skip, perm_swap | apply perm_swap]
          | eapply perm_trans;
            [apply perm_swap
            | eapply perm_trans; [apply perm_skip, perm_swap | apply perm_swap]]
          ].
Qed.

Lemma duty_split (duty : Z) :
  0 <= duty <= 65535 ->
  halfDuty duty = Z.shiftr duty 1
  /\ highSideDuty duty = 32767 + Z.shiftr duty 1
  /\ lowSideDuty duty = 32767 - Z.shiftr duty 1.
Proof.
  intros H. unfold highSideDuty, lowSideDuty, halfDuty, u16.
  rewrite Z.shiftr_div_pow2 by lia. change (2 ^ 1) with 2.
  assert (0 <= duty / 2 <= 32767) by (Z.div_mod_to_equations; lia).
  rewrite (Z.mod_small (duty / 2)) by lia.
  rewrite !Z.mod_small by lia. auto.
Qed.

(** C7: for every duty cycle in [0,65535] the commutation programs the high
    phase with [32767 + (dutyCycle >> 1)] and the low phase with
    [32767 - (dutyCycle >> 1)]; neither wraps in 16 bits, and the two add up
    to 65534 exactly, also when the sum is taken in [uint16_t]. *)
Theorem commutate_duty_sum (s : Sys) :
  0 <= sector (BLDC_motor s) <= 5 ->
  0 <= dutyCycle (BLDC_motor s) <= 65535 ->
  exists s' d h l hi lo,
    exec (BLDC_commutate env) s = Some s'
    /\ calls_since s s'
       = [ mk_pwm d MPWM_DORMANT (dutyCycle (BLDC_motor s));
           mk_pwm h MPWM_HI_STATE hi;
           mk_pwm l MPWM_HI_STATE lo ]
    /\ hi = 32767 + Z.shiftr (dutyCycle (BLDC_motor s)) 1
    /\ lo = 32767 - Z.shiftr (dutyCycle (BLDC_motor s)) 1
    /\ 0 <= hi <= 65535
    /\ 0 <= lo <= 65535
    /\ hi + lo = 65534
    /\ u16 (hi + lo) = 65534.
Proof.
  intros H Hduty.
  destruct (commutate_defined s) as (d & h & l & Hex & _); [lia|].
  cbn zeta in Hex.
  destruct (duty_split _ Hduty) as (_ & Hhi & Hlo).
  exists (commutate_post env s d h l), d, h, l,
    (highSideDuty (dutyCycle (BLDC_motor s))),
    (lowSideDuty (dutyCycle (BLDC_motor s))).
  split; [exact Hex|].
  split; [apply calls_since_app, commutate_post_calls|].
  rewrite Hhi, Hlo.
  assert (0 <= Z.shiftr (dutyCycle (BLDC_motor s)) 1 <= 32767).
  { rewrite Z.shiftr_div_pow2 by lia. change (2 ^ 1) with 2.
    Z.div_mod_to_equations; lia. }
  repeat split; try lia.
  replace (32767 + Z.shiftr (dutyCycle (BLDC_motor s)) 1 +
           (32767 - Z.shiftr (dutyCycle (BLDC_motor s)) 1)) with 65534 by lia.
  reflexivity.
Qed.

(** C10: [BLDC_commutate] is defined on every sector in [0,6].  The sector
    is advanced and wrapped before any table is read, so the sentinel 6
    becomes 0 under [BLDC_POS] and 5 otherwise; the three 6-entry tables
    are read at the new sector, which lies in [0,5] (they have no entry
    anywhere else), and the dormant-phase pointer is never left NULL. *)
Theorem commutate_total_with_sentinel (s : Sys) :
  0 <= sector (BLDC_motor s) <= 6 ->
  exists s' d h l,
    exec (BLDC_commutate env) s = Some s'
    /\ 0 <= sector (BLDC_motor s') <= 5
    /\ index dormantPhaseTable (sector (BLDC_motor s')) = Some d
    /\ index hiPhaseTable (sector (BLDC_motor s')) = Some h
    /\ index loPhaseTable (sector (BLDC_motor s')) = Some l
    /\ (forall i v, index dormantPhaseTable i = Some v -> 0 <= i <= 5)
    /\ dormantPhasePtr (BLDC_motor s') <> None
    /\ (sector (BLDC_motor s) = 6 ->
        direction (BLDC_motor s) = BLDC_POS -> sector (BLDC_motor s') = 0)
    /\ (sector (BLDC_motor s) = 6 ->
        direction (BLDC_motor s) <> BLDC_POS -> sector (BLDC_motor s') = 5).
Proof.
  intros H.
  destruct (commutate_defined s) as (d & h & l & Hex & Hd & Hh & Hl & _ & Hf);
    [lia|].
  cbn zeta in Hex, Hd, Hh, Hl.
  exists (commutate_post env s d h l), d, h, l.
  split; [exact Hex|].
  rewrite commutate_post_sector, commutate_post_ptr.
  split; [apply advance_range; lia|].
  repeat split; auto.
  - eapply index_defined_range; eauto.
  - eapply index_defined_range; eauto.
  - intros E Hdir. unfold advance. rewrite E, Hdir, Z.eqb_refl. reflexivity.
  - intros E Hdir. unfold advance. apply Z.eqb_neq in Hdir.
    rewrite E, Hdir. reflexivity.
Qed.

(** ** [BLDC_stopMotor] *)

Lemma BLDC_stopMotor_exec (s : Sys) :
  exec BLDC_stopMotor s
  = Some (with_motor (set_state BLDC_STOPPED) (add_calls stop_calls s)).
Proof.
  destruct s as [m c u w].
  unfold exec, BLDC_stopMotor, bind, MPWM_setPhaseDutyCycle, modify_world,
    modify_motor, with_motor, add_calls, stop_calls; cbn.
  rewrite app_calls. reflexivity.
Qed.

Lemma phase_output_stop (l : list pwm_call) (ph : Z) :
  In ph [MPWM_PH_A; MPWM_PH_B; MPWM_PH_C] ->
  phase_output (l ++ stop_calls) ph = Some (MPWM_DORMANT, 0).
Proof.
  intros Hin. unfold phase_output, stop_calls.
  rewrite rev_app_distr; cbn.
  destruct (Z.eqb_spec MPWM_PH_C ph); [reflexivity|].
  destruct (Z.eqb_spec MPWM_PH_B ph); [reflexivity|].
  destruct (Z.eqb_spec MPWM_PH_A ph); [reflexivity|].
  cbn in Hin; intuition congruence.
Qed.

(** C8: from any state [BLDC_stopMotor] programs the three phases dormant
    at duty 0 and sets the state to [BLDC_STOPPED]; a second call right
    after issues the same three calls, leaves every phase with the same
    drive (dormant, 0) and the motor exactly as the first call left it. *)
Theorem stopMotor_idempotent (s : Sys) :
  exists s1 s2,
    exec BLDC_stopMotor s = Some s1
    /\ exec BLDC_stopMotor s1 = Some s2
    /\ state (BLDC_motor s1) = BLDC_STOPPED
    /\ state (BLDC_motor s2) = BLDC_STOPPED
    /\ calls_since s s1 = stop_calls
    /\ calls_since s1 s2 = stop_calls
    /\ (forall ph, In ph [MPWM_PH_A; MPWM_PH_B; MPWM_PH_C] ->
          phase_output (pwm_calls (world s1)) ph = Some (MPWM_DORMANT, 0)
          /\ phase_output (pwm_calls (world s2)) ph = Some (MPWM_DORMANT, 0))
    /\ BLDC_motor s2 = BLDC_motor s1
    /\ BLDC_motor s1 = set_state BLDC_STOPPED (BLDC_motor s)
    /\ BLDC_command s2 = BLDC_command s.
Proof.
  do 2 eexists.
  split; [apply BLDC_stopMotor_exec|].
  split; [apply BLDC_stopMotor_exec|].
  repeat split; try reflexivity.
  - apply calls_since_app; reflexivity.
  - apply calls_since_app; reflexivity.
  - apply phase_output_stop; assumption.
  - apply (phase_output_stop (pwm_calls (world s) ++ stop_calls)); assumption.
Qed.

(** ** [BLDC_adcInterrupt] *)

Lemma exec_if (b : bool) (c : M unit) (s : Sys) :
  exec (if b then c else ret tt) s = if b then exec c s else Some s.
Proof. destruct b; reflexivity. Qed.

Lemma adcInterrupt_locked (s : Sys) :
  state (BLDC_motor s) = BLDC_LOCKED ->
  exec (BLDC_adcInterrupt env) s
  = Some (tick (if u32 (MSTMR_value env (reads (world (sampled env s))))
                   >? lockUntilTimeAbs (BLDC_motor s)
                then with_motor (set_state BLDC_STOPPED) (sampled env s)
                else sampled env s)).
Proof.
  destruct s as [m c u w]; cbn [BLDC_motor]; intros Hst.
  unfold exec, BLDC_adcInterrupt, bind, ADC_getVoltage, modify_motor, motor,
    MSTMR_getMilliSeconds, ret; cbn.
  rewrite Hst, Z.eqb_refl; cbn.
  destruct (_ >? _); reflexivity.
Qed.

(** C9: in [BLDC_LOCKED] a sampling event sets the state to [BLDC_STOPPED]
    exactly when the clock it reads is strictly greater than
    [lockUntilTimeAbs]; at or before that time the state stays
    [BLDC_LOCKED].  Either way nothing else changes: apart from the three
    phase voltages just sampled, every field of the motor keeps its value,
    the pending command is untouched and no phase is programmed. *)
Theorem adcInterrupt_locked_expiry (s : Sys) :
  header_wf hdr ->
  state (BLDC_motor s) = BLDC_LOCKED ->
  let now := u32 (MSTMR_value env (4 + reads (world s))) in
  exists s',
    exec (BLDC_adcInterrupt env) s = Some s'
    /\ (state (BLDC_motor s') = BLDC_STOPPED <->
        now > lockUntilTimeAbs (BLDC_motor s))
    /\ (state (BLDC_motor s') = BLDC_LOCKED <->
        now <= lockUntilTimeAbs (BLDC_motor s))
    /\ BLDC_motor s'
       = set_state (state (BLDC_motor s'))
           (set_phases (phaseA (BLDC_motor s')) (phaseB (BLDC_motor s'))
                       (phaseC (BLDC_motor s')) (BLDC_motor s))
    /\ BLDC_command s' = BLDC_command s
    /\ calls_since s s' = [].
Proof.
  intros (Hst & _) Hl now.
  assert (Hne : BLDC_LOCKED <> BLDC_STOPPED).
  { inversion Hst as [|? ? Hnin _]; subst. intros E; apply Hnin; left; auto. }
  eexists. split; [apply adcInterrupt_locked, Hl|].
  change (reads (world (sampled env s))) with (4 + reads (world s))%nat.
  fold now.
  destruct (Z.gtb_spec now (lockUntilTimeAbs (BLDC_motor s))) as [Hgt|Hle].
  - cbn. repeat split; try lia; try congruence.
    unfold calls_since; cbn. apply skipn_all.
  - cbn. rewrite Hl. repeat split; try lia; try congruence.
    + destruct s as [[] ? ? ?]; cbn in *; subst; reflexivity.
    + unfold calls_since; cbn. apply skipn_all.
Qed.

(** ** [BLDC_determineSector] *)

Lemma read_hallValue_run (s : Sys) :
  read_hallValue env s
  = Some (hall_code env (reads (world s)), tick (tick (tick s))).
Proof.
  destruct s as [m c u w].
  unfold read_hallValue, bind, GPIO_readInput, ret, hall_code, tick; cbn.
  destruct (GPIO_value env (reads w) 0), (GPIO_value env (S (reads w)) 1),
    (GPIO_value env (S (S (reads w))) 2); reflexivity.
Qed.

Lemma hall_code_range (r : nat) : 0 <= hall_code env r <= 7.
Proof.
  unfold hall_code.
  destruct (GPIO_value env r 0), (GPIO_value env (S r) 1),
    (GPIO_value env (S (S r)) 2); cbn; lia.
Qed.

Lemma table_lookup (t : list Z) (i : Z) :
  length t = 8%nat -> Forall (fun v => 0 <= v <= 6) t -> 0 <= i <= 7 ->
  exists v, index t i = Some v /\ 0 <= v <= 6.
Proof.
  intros Hlen Hall Hi. unfold index.
  destruct (Z.ltb_spec i 0); [lia|].
  destruct (nth_error t (Z.to_nat i)) as [v|] eqn:E.
  - exists v; split; [reflexivity|].
    rewrite Forall_forall in Hall. apply Hall. eapply nth_error_In; eauto.
  - apply nth_error_None in E. lia.
Qed.

Lemma determineSector_sensorless (s : Sys) :
  sensor (BLDC_motor s) <> BLDC_HALL ->
  exec (BLDC_determineSector env) s = Some s.
Proof.
  intros H. apply Z.eqb_neq in H.
  unfold exec, BLDC_determineSector, bind, motor; cbn.
  rewrite H. destruct (_ =? BLDC_SENSORLESS); reflexivity.
Qed.

Lemma determineSector_hall (s : Sys) (v : Z) :
  sensor (BLDC_motor s) <> BLDC_SENSORLESS ->
  sensor (BLDC_motor s) = BLDC_HALL ->
  index (motor_hallToSector (BLDC_motor s))
        (hall_code env (reads (world s))) = Some v ->
  exec (BLDC_determineSector env) s
  = Some (with_motor (set_sector (s8 v)) (tick (tick (tick s)))).
Proof.
  intros Hn Hh Hv. apply Z.eqb_neq in Hn.
  unfold exec, BLDC_determineSector, bind, motor.
  rewrite Hn, Hh, Z.eqb_refl, read_hallValue_run.
  run. rewrite Hv. reflexivity.
Qed.

(** With a well-formed table the sector determination is defined and
    leaves a sector in [0,6]; nothing but the sector and the read counter
    changes. *)
Lemma determineSector_defined (s : Sys) :
  header_wf hdr -> table_ok s -> 0 <= sector (BLDC_motor s) <= 6 ->
  exists s',
    exec (BLDC_determineSector env) s = Some s'
    /\ 0 <= sector (BLDC_motor s') <= 6
    /\ BLDC_motor s' = set_sector (sector (BLDC_motor s')) (BLDC_motor s)
    /\ BLDC_command s' = BLDC_command s
    /\ pwm_calls (world s') = pwm_calls (world s)
    /\ (sensor (BLDC_motor s) <> BLDC_HALL ->
        sector (BLDC_motor s') = sector (BLDC_motor s)).
Proof.
  intros (_ & Hse & _) (Hlen & Hall) Hs.
  assert (Hne : BLDC_SENSORLESS <> BLDC_HALL).
  { inversion Hse as [|? ? Hnin _]; subst. intros E; apply Hnin; left; auto. }
  destruct (Z.eq_dec (sensor (BLDC_motor s)) BLDC_HALL) as [Hh|Hh].
  - destruct (table_lookup _ _ Hlen Hall (hall_code_range (reads (world s))))
      as (v & Hv & Hr).
    eexists. split; [apply (determineSector_hall s v); congruence|].
    rewrite s8_small by lia. run. repeat split; try lia; try contradiction.
  - exists s. split; [apply determineSector_sensorless, Hh|].
    repeat split; try lia. destruct s as [[] ? ? ?]; reflexivity.
Qed.

(** ** [BLDC_startMotor] *)

Lemma startMotor_stopped (s : Sys) :
  state (BLDC_motor s) = BLDC_STOPPED ->
  exec (BLDC_startMotor env) s
  = match exec (BLDC_determineSector env) (start_entry env s) with
    | Some s1 => exec (BLDC_commutate env) s1
    | None => None
    end.
Proof.
  intros Hst. destruct s as [m c u w].
  unfold BLDC_startMotor, start_entry; run.
  rewrite Hst, Z.eqb_refl.
  destruct (BLDC_determineSector env _) as [[[] s1]|]; reflexivity.
Qed.

Lemma startMotor_not_stopped (s : Sys) :
  state (BLDC_motor s) <> BLDC_STOPPED ->
  exec (BLDC_startMotor env) s = Some s.
Proof.
  intros Hst. apply Z.eqb_neq in Hst.
  unfold BLDC_startMotor; run. rewrite Hst. reflexivity.
Qed.

(** C4: [BLDC_startMotor] acts only in [BLDC_STOPPED].  There it sets the
    sector to 0 and the state to [BLDC_STARTING], records the clock as
    start time, takes the fixed [BLDC_MIN_DUTY_CYCLE] as duty cycle whatever
    duty is commanded, copies the commanded direction (the state [s0]),
    then determines the sector from the position sensor (the state [s1]:
    with a Hall sensor the sector is the motor's table entry for the code
    on the three Hall lines, without one nothing is read and the sector
    stays 0) and commutates exactly once (the state [s']).  In any other
    state it returns with the whole system unchanged. *)
Theorem startMotor_spec (s : Sys) :
  header_wf hdr ->
  table_ok s ->
  (state (BLDC_motor s) = BLDC_STOPPED ->
   exists s0 s1 s' d h l,
     sector (BLDC_motor s0) = 0
     /\ state (BLDC_motor s0) = BLDC_STARTING
     /\ startTimeAbs (BLDC_motor s0) = u32 (MSTMR_value env (reads (world s)))
     /\ dutyCycle (BLDC_motor s0) = u16 BLDC_MIN_DUTY_CYCLE
     /\ direction (BLDC_motor s0) = cmd_direction (BLDC_command s)
     /\ BLDC_motor s0
        = set_direction (cmd_direction (BLDC_command s))
            (set_dutyCycle (u16 BLDC_MIN_DUTY_CYCLE)
               (set_startTimeAbs (u32 (MSTMR_value env (reads (world s))))
                  (set_state BLDC_STARTING (set_sector 0 (BLDC_motor s)))))
     /\ BLDC_command s0 = BLDC_command s
     /\ hallTableUtilized s0 = hallTableUtilized s
     /\ world s0 = next_read (world s)
     /\ exec (BLDC_determineSector env) s0 = Some s1
     /\ (sensor (BLDC_motor s) = BLDC_HALL ->
         exists v,
           index (motor_hallToSector (BLDC_motor s))
                 (hall_code env (S (reads (world s)))) = Some v
           /\ sector (BLDC_motor s1) = v
           /\ reads (world s1) = (4 + reads (world s))%nat)
     /\ (sensor (BLDC_motor s) <> BLDC_HALL -> s1 = s0)
     /\ BLDC_motor s1 = set_sector (sector (BLDC_motor s1)) (BLDC_motor s0)
     /\ BLDC_command s1 = BLDC_command s
     /\ pwm_calls (world s1) = pwm_calls (world s)
     /\ exec (BLDC_commutate env) s1 = Some s'
     /\ exec (BLDC_startMotor env) s = Some s'
     /\ state (BLDC_motor s') = BLDC_STARTING
     /\ startTimeAbs (BLDC_motor s') = u32 (MSTMR_value env (reads (world s)))
     /\ dutyCycle (BLDC_motor s') = u16 BLDC_MIN_DUTY_CYCLE
     /\ direction (BLDC_motor s') = cmd_direction (BLDC_command s)
     /\ sector (BLDC_motor s')
        = advance (cmd_direction (BLDC_command s)) (sector (BLDC_motor s1))
     /\ 0 <= sector (BLDC_motor s') <= 5
     /\ spec_phase_roles (sector (BLDC_motor s')) = Some (h, l, d)
     /\ dormantPhasePtr (BLDC_motor s') = dormant_field d
     /\ startCommutationTimeAbs (BLDC_motor s')
        = u32 (MSTMR_value env (reads (world s1)))
     /\ calls_since s s' = commutation_calls (u16 BLDC_MIN_DUTY_CYCLE) d h l
     /\ BLDC_command s' = BLDC_command s)
  /\ (state (BLDC_motor s) <> BLDC_STOPPED ->
      exec (BLDC_startMotor env) s = Some s).
Proof.
  intros Hwf Htab. split; [|apply startMotor_not_stopped].
  intros Hst.
  assert (Hne : BLDC_SENSORLESS <> BLDC_HALL).
  { destruct Hwf as (_ & Hse & _).
    inversion Hse as [|? ? Hnin _]; subst. intros E; apply Hnin; left; auto. }
  set (s0 := start_entry env s).
  assert (Hdet : exists s1,
    exec (BLDC_determineSector env) s0 = Some s1
    /\ 0 <= sector (BLDC_motor s1) <= 6
    /\ BLDC_motor s1 = set_sector (sector (BLDC_motor s1)) (BLDC_motor s0)
    /\ BLDC_command s1 = BLDC_command s
    /\ pwm_calls (world s1) = pwm_calls (world s)
    /\ (sensor (BLDC_motor s) = BLDC_HALL ->
        exists v,
          index (motor_hallToSector (BLDC_motor s))
                (hall_code env (S (reads (world s)))) = Some v
          /\ sector (BLDC_motor s1) = v
          /\ reads (world s1) = (4 + reads (world s))%nat)
    /\ (sensor (BLDC_motor s) <> BLDC_HALL -> s1 = s0)).
  { destruct (Z.eq_dec (sensor (BLDC_motor s)) BLDC_HALL) as [Hh|Hh].
    - destruct Htab as (Hlen & Hall).
      destruct (table_lookup _ _ Hlen Hall
                  (hall_code_range (S (reads (world s))))) as (v & Hv & Hr).
      exists (with_motor (set_sector (s8 v)) (tick (tick (tick s0)))).
      split.
      { apply determineSector_hall; [| exact Hh | exact Hv].
        change (sensor (BLDC_motor s0)) with (sensor (BLDC_motor s)).
        congruence. }
      rewrite s8_small by lia.
      split; [exact Hr|]. split; [reflexivity|]. split; [reflexivity|].
      split; [reflexivity|]. split; [|contradiction].
      intros _. exists v. split; [exact Hv|]. split; reflexivity.
    - exists s0. split; [apply determineSector_sensorless; exact Hh|].
      split; [cbn; lia|]. split; [reflexivity|]. split; [reflexivity|].
      split; [reflexivity|]. split; [contradiction | reflexivity]. }
  destruct Hdet as (s1 & Hdet & Hr1 & Hm1 & Hc1 & Hp1 & Hhall & Hnone).
  destruct (commutate_defined s1)
    as (d & h & l & Hex & _ & _ & _ & Hroles & _); [lia|].
  cbn zeta in Hex, Hroles.
  exists s0, s1, (commutate_post env s1 d h l), d, h, l.
  rewrite (startMotor_stopped s Hst). fold s0. rewrite Hdet, Hex.
  destruct (commutate_post_frame s1 d h l) as (F1 & F2 & _ & _ & F5).
  rewrite commutate_post_sector, commutate_post_state,
    commutate_post_direction, commutate_post_ptr, F1, F2, F5, Hc1.
  assert (Hcalls : calls_since s (commutate_post env s1 d h l)
            = commutation_calls (u16 BLDC_MIN_DUTY_CYCLE) d h l).
  { apply calls_since_app. rewrite commutate_post_calls, Hp1, Hm1.
    reflexivity. }
  assert (Hstamp : startCommutationTimeAbs
                     (BLDC_motor (commutate_post env s1 d h l))
                   = u32 (MSTMR_value env (reads (world s1)))).
  { unfold commutate_post. rewrite Hm1.
    change (state (set_sector (sector (BLDC_motor s1)) (BLDC_motor s0)))
      with BLDC_STARTING.
    rewrite Z.eqb_refl. reflexivity. }
  assert (Hdir : direction (BLDC_motor s1) = cmd_direction (BLDC_command s))
    by (rewrite Hm1; reflexivity).
  assert (Hst1 : state (BLDC_motor s1) = BLDC_STARTING)
    by (rewrite Hm1; reflexivity).
  assert (Hti1 : startTimeAbs (BLDC_motor s1)
                 = u32 (MSTMR_value env (reads (world s))))
    by (rewrite Hm1; reflexivity).
  assert (Hdu1 : dutyCycle (BLDC_motor s1) = u16 BLDC_MIN_DUTY_CYCLE)
    by (rewrite Hm1; reflexivity).
  pose proof (advance_range (direction (BLDC_motor s1))
                (sector (BLDC_motor s1)) ltac:(lia)) as Hadv.
  rewrite Hdir in *. rewrite Hst1, Hti1, Hdu1.
  repeat (split; [first [reflexivity | assumption]|]).
  reflexivity.
Qed.


Lemma deref_run (p : phase_field) (s : Sys) :
  deref (Some p) s = Some (field_value p (BLDC_motor s), s).
Proof. destruct p; reflexivity. Qed.

Lemma states_distinct :
  header_wf hdr ->
  BLDC_LOCKED <> BLDC_STOPPED /\ BLDC_LOCKED <> BLDC_STARTING
  /\ BLDC_LOCKED <> BLDC_RUNNING /\ BLDC_STOPPED <> BLDC_STARTING
  /\ BLDC_STOPPED <> BLDC_RUNNING /\ BLDC_STARTING <> BLDC_RUNNING.
Proof.
  intros (H & _).
  apply NoDup_cons_iff in H as (H1 & H).
  apply NoDup_cons_iff in H as (H2 & H).
  apply NoDup_cons_iff in H as (H3 & _).
  simpl In in H1, H2, H3.
  repeat split; intros E;
    first [ apply H1; rewrite E; tauto
          | apply H2; rewrite E; tauto
          | apply H3; rewrite E; tauto ].
Qed.

(** The [BLDC_STARTING] case: the zero-crossing test may commutate, then
    the stall test reads the clock and may commutate. *)
Lemma adcInterrupt_starting (s : Sys) (p : phase_field) :
  header_wf hdr ->
  state (BLDC_motor s) = BLDC_STARTING ->
  dormantPhasePtr (BLDC_motor s) = Some p ->
  exec (BLDC_adcInterrupt env) s
  = match (if zero_crossing p (neutralVoltage env s) (sampled env s)
           then exec (BLDC_commutate env) (sampled env s)
           else Some (sampled env s)) with
    | Some sb => if stalled env sb
                 then exec (BLDC_commutate env) (tick sb)
                 else Some (tick sb)
    | None => None
    end.
Proof.
  intros Hwf Hst Hp.
  destruct (states_distinct Hwf) as (_ & H1 & _ & H2 & _).
  destruct s as [m c u w]; run.
  unfold BLDC_adcInterrupt, sampled, neutralVoltage, zero_crossing, stalled;
    run.
  rewrite Hst, Hp.
  replace (BLDC_STARTING =? BLDC_LOCKED) with false
    by (symmetry; apply Z.eqb_neq; congruence).
  replace (BLDC_STARTING =? BLDC_STOPPED) with false
    by (symmetry; apply Z.eqb_neq; congruence).
  rewrite Z.eqb_refl. run.
  destruct (Z.land (sector m) 1 =? 1); cbn beta; rewrite deref_run; run.
  - destruct (field_value p _ <? _); cbn beta.
    + destruct (BLDC_commutate env _) as [[[] sb]|]; [|reflexivity].
      destruct (_ <? _); [|reflexivity].
      destruct (BLDC_commutate env _) as [[[] sc]|]; reflexivity.
    + run. destruct (_ <? _); [|reflexivity].
      destruct (BLDC_commutate env _) as [[[] sc]|]; reflexivity.
  - destruct (field_value p _ >? _); cbn beta.
    + destruct (BLDC_commutate env _) as [[[] sb]|]; [|reflexivity].
      destruct (_ <? _); [|reflexivity].
      destruct (BLDC_commutate env _) as [[[] sc]|]; reflexivity.
    + run. destruct (_ <? _); [|reflexivity].
      destruct (BLDC_commutate env _) as [[[] sc]|]; reflexivity.
Qed.

Lemma adcInterrupt_starting_null (s : Sys) :
  header_wf hdr ->
  state (BLDC_motor s) = BLDC_STARTING ->
  dormantPhasePtr (BLDC_motor s) = None ->
  exec (BLDC_adcInterrupt env) s = None.
Proof.
  intros Hwf Hst Hp.
  destruct (states_distinct Hwf) as (_ & H1 & _ & H2 & _).
  destruct s as [m c u w]; run.
  unfold BLDC_adcInterrupt; run.
  rewrite Hst, Hp.
  replace (BLDC_STARTING =? BLDC_LOCKED) with false
    by (symmetry; apply Z.eqb_neq; congruence).
  replace (BLDC_STARTING =? BLDC_STOPPED) with false
    by (symmetry; apply Z.eqb_neq; congruence).
  rewrite Z.eqb_refl.
  destruct (Z.land (sector m) 1 =? 1); reflexivity.
Qed.

Lemma adcInterrupt_idle (s : Sys) :
  state (BLDC_motor s) <> BLDC_LOCKED ->
  state (BLDC_motor s) <> BLDC_STARTING ->
  exec (BLDC_adcInterrupt env) s = Some (sampled env s).
Proof.
  intros H1 H2. apply Z.eqb_neq in H1, H2.
  destruct s as [m c u w]; run.
  unfold BLDC_adcInterrupt, sampled; run.
  rewrite H1, H2.
  destruct (state m =? BLDC_STOPPED), (state m =? BLDC_RUNNING); reflexivity.
Qed.

(** ** The stall timer away from the 32-bit wrap

    What the [BLDC_STARTING] case does while [startCommutationTimeAbs + 25]
    does not overflow. *)

Lemma u32_range (x : Z) : 0 <= u32 x < 4294967296.
Proof. unfold u32. apply Z.mod_pos_bound. lia. Qed.

Lemma sampled_facts (s : Sys) :
  state (BLDC_motor (sampled env s)) = state (BLDC_motor s)
  /\ sector (BLDC_motor (sampled env s)) = sector (BLDC_motor s)
  /\ dutyCycle (BLDC_motor (sampled env s)) = dutyCycle (BLDC_motor s)
  /\ startCommutationTimeAbs (BLDC_motor (sampled env s))
     = startCommutationTimeAbs (BLDC_motor s)
  /\ reads (world (sampled env s)) = (4 + reads (world s))%nat
  /\ pwm_calls (world (sampled env s)) = pwm_calls (world s).
Proof. repeat split. Qed.

(** A zero crossing commutates once; the stall test that follows sees the
    fresh time stamp and stays quiet, provided the stamp is more than
    25 ms away from the wrap and the clock has not run 25 ms ahead within
    the event. *)
Lemma adcInterrupt_starting_crossing (s : Sys) (p : phase_field) :
  header_wf hdr ->
  state (BLDC_motor s) = BLDC_STARTING ->
  dormantPhasePtr (BLDC_motor s) = Some p ->
  sector_in_range s ->
  zero_crossing p (neutralVoltage env s) (sampled env s) = true ->
  u32 (MSTMR_value env (4 + reads (world s))) + 25 < 4294967296 ->
  u32 (MSTMR_value env (5 + reads (world s)))
  <= u32 (MSTMR_value env (4 + reads (world s))) + 25 ->
  exists s' d h l,
    exec (BLDC_adcInterrupt env) s = Some s'
    /\ calls_since s s' = commutation_calls (dutyCycle (BLDC_motor s)) d h l
    /\ sector (BLDC_motor s')
       = advance (direction (BLDC_motor s)) (sector (BLDC_motor s)).
Proof.
  intros Hwf Hst Hp Hs Hzc Hnw Hclk.
  rewrite (adcInterrupt_starting s p Hwf Hst Hp), Hzc.
  destruct (commutate_defined (sampled env s)) as (d & h & l & Hex & _).
  { unfold sector_in_range in Hs. cbn. lia. }
  cbn zeta in Hex. rewrite Hex.
  set (sb := commutate_post env (sampled env s) d h l).
  assert (Hstamp : startCommutationTimeAbs (BLDC_motor sb)
                   = u32 (MSTMR_value env (4 + reads (world s)))
                   /\ reads (world sb) = (5 + reads (world s))%nat).
  { unfold sb, commutate_post.
    replace (state (BLDC_motor (sampled env s)) =? BLDC_STARTING) with true
      by (symmetry; apply Z.eqb_eq; exact Hst).
    split; reflexivity. }
  destruct Hstamp as (Hstamp & Hreads).
  assert (Hquiet : stalled env sb = false).
  { unfold stalled. rewrite Hstamp, Hreads.
    pose proof (u32_range (MSTMR_value env (4 + reads (world s)))).
    unfold u32 at 1. rewrite Z.mod_small by lia.
    apply Z.ltb_ge. exact Hclk. }
  rewrite Hquiet. exists (tick sb), d, h, l.
  split; [reflexivity|]. split.
  - apply calls_since_app. unfold sb. cbn [tick world pwm_calls next_read].
    change (pwm_calls (world (tick (commutate_post env (sampled env s) d h l))))
      with (pwm_calls (world (commutate_post env (sampled env s) d h l))).
    rewrite commutate_post_calls. reflexivity.
  - change (sector (BLDC_motor (tick sb))) with (sector (BLDC_motor sb)).
    unfold sb. rewrite commutate_post_sector. reflexivity.
Qed.


(** ** The sector stays in range *)

Lemma commutate_keeps (s : Sys) :
  0 <= sector (BLDC_motor s) <= 6 ->
  exists s',
    exec (BLDC_commutate env) s = Some s'
    /\ sector_in_range s'
    /\ motor_hallToSector (BLDC_motor s') = motor_hallToSector (BLDC_motor s)
    /\ state (BLDC_motor s') = state (BLDC_motor s)
    /\ dormantPhasePtr (BLDC_motor s') <> None.
Proof.
  intros H.
  destruct (commutate_defined s) as (d & h & l & Hex & _ & _ & _ & _ & Hf);
    [lia|].
  cbn zeta in Hex. eexists; split; [exact Hex|].
  unfold sector_in_range.
  rewrite commutate_post_sector, commutate_post_table, commutate_post_state,
    commutate_post_ptr.
  repeat split; try apply advance_range; try lia. exact Hf.
Qed.

Lemma motor_inv_same (s s' : Sys) :
  sector (BLDC_motor s') = sector (BLDC_motor s) ->
  motor_hallToSector (BLDC_motor s') = motor_hallToSector (BLDC_motor s) ->
  (state (BLDC_motor s') = BLDC_STARTING ->
   state (BLDC_motor s) = BLDC_STARTING
   /\ dormantPhasePtr (BLDC_motor s') = dormantPhasePtr (BLDC_motor s)) ->
  motor_inv s -> motor_inv s'.
Proof.
  unfold motor_inv, sector_in_range, table_ok.
  intros -> -> Hp (Hs & Ht & Hptr). repeat split; try tauto; try lia.
  intros E. destruct (Hp E) as (E1 & ->). auto.
Qed.

(** The handler in [BLDC_STARTING] with a valid dormant-phase pointer. *)
Lemma adcInterrupt_starting_keeps (s : Sys) (p : phase_field) :
  header_wf hdr ->
  state (BLDC_motor s) = BLDC_STARTING ->
  dormantPhasePtr (BLDC_motor s) = Some p ->
  sector_in_range s ->
  exists s',
    exec (BLDC_adcInterrupt env) s = Some s'
    /\ sector_in_range s'
    /\ motor_hallToSector (BLDC_motor s') = motor_hallToSector (BLDC_motor s)
    /\ state (BLDC_motor s') = BLDC_STARTING
    /\ dormantPhasePtr (BLDC_motor s') <> None.
Proof.
  intros Hwf Hst Hp Hs.
  rewrite (adcInterrupt_starting s p Hwf Hst Hp).
  assert (Ha : exists sb,
    (if zero_crossing p (neutralVoltage env s) (sampled env s)
     then exec (BLDC_commutate env) (sampled env s)
     else Some (sampled env s)) = Some sb
    /\ sector_in_range sb
    /\ motor_hallToSector (BLDC_motor sb) = motor_hallToSector (BLDC_motor s)
    /\ state (BLDC_motor sb) = BLDC_STARTING
    /\ dormantPhasePtr (BLDC_motor sb) <> None).
  { destruct (zero_crossing _ _ _).
    - destruct (commutate_keeps (sampled env s)) as (sb & E & H1 & H2 & H3 & H4).
      { unfold sector_in_range in Hs. cbn. lia. }
      exists sb. repeat split; try assumption; try apply H1.
      rewrite H3. exact Hst.
    - exists (sampled env s). split; [reflexivity|].
      repeat split; try apply Hs; try exact Hst.
      cbn. rewrite Hp. discriminate. }
  destruct Ha as (sb & -> & Hsb & Htb & Hstb & Hpb).
  destruct (stalled env sb).
  - destruct (commutate_keeps (tick sb)) as (sc & E & H1 & H2 & H3 & H4).
    { unfold sector_in_range in Hsb. cbn. lia. }
    exists sc. repeat split; try assumption; try apply H1.
    + rewrite H2. exact Htb.
    + rewrite H3. exact Hstb.
  - exists (tick sb). repeat split; try assumption; apply Hsb.
Qed.

Lemma adcInterrupt_inv (s : Sys) :
  header_wf hdr -> motor_inv s ->
  exists s', exec (BLDC_adcInterrupt env) s = Some s' /\ motor_inv s'.
Proof.
  intros Hwf Hinv.
  destruct (states_distinct Hwf) as (Hls & Hlg & _ & Hsg & _).
  destruct (Z.eq_dec (state (BLDC_motor s)) BLDC_STARTING) as [Hst|Hst].
  - destruct Hinv as (Hs & Ht & Hp).
    destruct (dormantPhasePtr (BLDC_motor s)) as [p|] eqn:Ep;
      [|exfalso; apply (Hp Hst); reflexivity].
    destruct (adcInterrupt_starting_keeps s p Hwf Hst Ep Hs)
      as (s' & E & H1 & H2 & H3 & H4).
    exists s'. split; [exact E|]. split; [exact H1|].
    split; [unfold table_ok in *; rewrite H2; exact Ht | auto].
  - destruct (Z.eq_dec (state (BLDC_motor s)) BLDC_LOCKED) as [Hl|Hl].
    + eexists. split; [apply adcInterrupt_locked, Hl|].
      apply (motor_inv_same s); [| | | exact Hinv];
        destruct (_ >? _); try reflexivity; cbn; intros E; congruence.
    + exists (sampled env s). split; [apply adcInterrupt_idle; assumption|].
      apply (motor_inv_same s); [reflexivity | reflexivity | | exact Hinv].
      cbn. intros E; congruence.
Qed.

Lemma startMotor_inv (s : Sys) :
  header_wf hdr -> motor_inv s ->
  exists s', exec (BLDC_startMotor env) s = Some s' /\ motor_inv s'.
Proof.
  intros Hwf Hinv.
  destruct (Z.eq_dec (state (BLDC_motor s)) BLDC_STOPPED) as [Hst|Hst].
  - destruct Hinv as (Hs & Ht & _).
    destruct (determineSector_defined (start_entry env s) Hwf Ht)
      as (s1 & Hdet & Hr1 & Hm1 & _); [unfold start_entry; run; lia|].
    destruct (commutate_keeps s1 Hr1) as (s' & E & H1 & H2 & _ & H4).
    exists s'. rewrite (startMotor_stopped s Hst), Hdet.
    split; [exact E|]. split; [exact H1|].
    split; [|auto].
    unfold table_ok in *. rewrite H2, Hm1. exact Ht.
  - exists s. split; [apply startMotor_not_stopped, Hst | exact Hinv].
Qed.

Lemma run_op_inv (o : op) (s : Sys) :
  header_wf hdr -> motor_inv s ->
  exists s', exec (run_op env o) s = Some s' /\ motor_inv s'.
Proof.
  intros Hwf Hinv.
  destruct (states_distinct Hwf) as (_ & _ & _ & Hsg & _).
  destruct o; cbn [run_op].
  - apply startMotor_inv; assumption.
  - eexists. split; [apply BLDC_stopMotor_exec|].
    apply (motor_inv_same s); [reflexivity | reflexivity | | exact Hinv].
    cbn. intros E; congruence.
  - eexists. split; [reflexivity|].
    apply (motor_inv_same s); try reflexivity; [|exact Hinv]. auto.
  - eexists. split; [reflexivity|].
    apply (motor_inv_same s); try reflexivity; [|exact Hinv]. auto.
  - eexists. split; [reflexivity|].
    apply (motor_inv_same s); try reflexivity; [|exact Hinv]. auto.
  - apply adcInterrupt_inv; assumption.
Qed.

Lemma run_ops_inv (ops : list op) :
  header_wf hdr ->
  forall s, motor_inv s ->
  exists s', exec (run_ops env ops) s = Some s' /\ motor_inv s'.
Proof.
  intros Hwf. induction ops as [|o ops IH]; intros s Hinv.
  - exists s. split; [reflexivity | exact Hinv].
  - destruct (run_op_inv o s Hwf Hinv) as (s1 & E1 & H1).
    destruct (IH s1 H1) as (s' & E & H').
    exists s'. cbn [run_ops]. rewrite exec_seq, E1. auto.
Qed.

Lemma u16_b2z (b : bool) : u16 (Z.b2z b) = Z.b2z b.
Proof. destruct b; reflexivity. Qed.

(** [BLDC_initMotor] on the freshly booted globals: defined, and leaves
    the motor stopped in sector 0 with either the zeroed table
    (sensorless) or row 0 of the static table (Hall). *)
Lemma initMotor_boot :
  header_wf hdr ->
  exists s, exec (BLDC_initMotor env) boot = Some s /\ motor_inv s.
Proof.
  intros Hwf.
  destruct (states_distinct Hwf) as (_ & _ & _ & Hsg & _).
  unfold BLDC_initMotor, BLDC_initPositionSensors, BLDC_stopMotor,
    BLDC_commandDirection, MPWM_initMotorPwm, MPWM_setMotorPwmFreq,
    GPIO_pinSetup_hall, ADC_initAdc1Interrupt, read_hallValue, boot.
  cbv [exec bind ret undefined motor modify_motor modify_command
       modify_world next_read MPWM_setPhaseDutyCycle GPIO_readInput
       BLDC_motor BLDC_command hallTableUtilized world
       reads pwm_calls pwm_freq hall_pins_input adc1_handler
       cmd_direction cmd_dutyCycle].
  destruct (GPIO_value env 0 0), (GPIO_value env 1 1), (GPIO_value env 2 2);
    (eexists; split; [vm_compute; reflexivity|]);
    (split; [unfold sector_in_range; cbn [BLDC_motor sector]; lia|]);
    (split; [split; [reflexivity
                    | cbn [BLDC_motor motor_hallToSector];
                      repeat constructor; lia]|]);
    intros E; exfalso; apply Hsg; exact E.
Qed.

(** C1 (amended): every state the program reaches through its operations,
    from [BLDC_initMotor] on the booted globals, has its sector in [0,5],
    and no operation runs into undefined behaviour.  [BLDC_startMotor],
    [BLDC_commutate] (wrapping 5 to 0 under [BLDC_POS] and 0 to 5 under
    [BLDC_NEG]) and [BLDC_adcInterrupt] keep a sector in [0,5] in [0,5].
    [BLDC_determineSector] alone only keeps it in [0,6]: it stores whatever
    the Hall table holds, which may be the sentinel 6. *)
Theorem sector_range_invariant (ops : list op) :
  header_wf hdr ->
  (exists s,
     exec (BLDC_initMotor env ;; run_ops env ops) boot = Some s
     /\ sector_in_range s)
  /\ preserves_sector_range (BLDC_startMotor env)
  /\ preserves_sector_range (BLDC_commutate env)
  /\ preserves_sector_range (BLDC_adcInterrupt env)
  /\ (forall s s',
        table_ok s -> sector_in_range s ->
        exec (BLDC_determineSector env) s = Some s' ->
        0 <= sector (BLDC_motor s') <= 6)
  /\ advance BLDC_POS 5 = 0
  /\ advance BLDC_NEG 0 = 5.
Proof.
  intros Hwf. split; [|split; [|split; [|split; [|split; [|split]]]]].
  - destruct (initMotor_boot Hwf) as (s0 & E0 & H0).
    destruct (run_ops_inv ops Hwf s0 H0) as (s & E & Hs).
    exists s. rewrite exec_seq, E0. split; [exact E | apply Hs].
  - intros s s' Ht Hs E.
    destruct (Z.eq_dec (state (BLDC_motor s)) BLDC_STOPPED) as [Hst|Hst].
    + destruct (determineSector_defined (start_entry env s) Hwf Ht)
        as (s1 & Hdet & Hr1 & _); [unfold start_entry; run; lia|].
      destruct (commutate_keeps s1 Hr1) as (s2 & E2 & H2 & _).
      rewrite (startMotor_stopped s Hst), Hdet, E2 in E.
      injection E as <-. exact H2.
    + rewrite (startMotor_not_stopped s Hst) in E. injection E as <-. exact Hs.
  - intros s s' _ Hs E.
    destruct (commutate_keeps s) as (s2 & E2 & H2 & _);
      [unfold sector_in_range in Hs; lia|].
    rewrite E2 in E. injection E as <-. exact H2.
  - intros s s' _ Hs E.
    destruct (Z.eq_dec (state (BLDC_motor s)) BLDC_STARTING) as [Hst|Hst].
    + destruct (dormantPhasePtr (BLDC_motor s)) as [p|] eqn:Ep.
      * destruct (adcInterrupt_starting_keeps s p Hwf Hst Ep Hs)
          as (s2 & E2 & H2 & _).
        rewrite E2 in E. injection E as <-. exact H2.
      * rewrite (adcInterrupt_starting_null s Hwf Hst Ep) in E. discriminate.
    + destruct (Z.eq_dec (state (BLDC_motor s)) BLDC_LOCKED) as [Hl|Hl].
      * rewrite (adcInterrupt_locked s Hl) in E. injection E as <-.
        destruct (_ >? _); exact Hs.
      * rewrite (adcInterrupt_idle s Hl Hst) in E. injection E as <-. exact Hs.
  - intros s s' Ht Hs E.
    destruct (determineSector_defined s Hwf Ht) as (s2 & E2 & H2 & _);
      [unfold sector_in_range in Hs; lia|].
    rewrite E2 in E. injection E as <-. exact H2.
  - unfold advance. rewrite Z.eqb_refl. reflexivity.
  - destruct Hwf as (_ & _ & _ & Hd). unfold advance.
    replace (BLDC_NEG =? BLDC_POS) with false
      by (symmetry; apply Z.eqb_neq; congruence).
    reflexivity.
Qed.

(** C2 (amended): with sensor kind Hall and any of the twelve rows loaded,
    [BLDC_determineSector] stores [table[code]] as the sector for every
    3-bit code and does nothing else: no fault is raised, the state is not
    changed (in particular not set to [BLDC_LOCKED]) and no phase is
    programmed.  Codes 1 to 6 give a sector in [0,5]; codes 0 and 7, and
    only they, give the sentinel 6. *)
Theorem determineSector_hall_lookup (s : Sys) :
  header_wf hdr ->
  sensor (BLDC_motor s) = BLDC_HALL ->
  In (motor_hallToSector (BLDC_motor s)) hallToSector ->
  exists s' v,
    exec (BLDC_determineSector env) s = Some s'
    /\ index (motor_hallToSector (BLDC_motor s))
             (hall_code env (reads (world s))) = Some v
    /\ BLDC_motor s' = set_sector v (BLDC_motor s)
    /\ state (BLDC_motor s') = state (BLDC_motor s)
    /\ BLDC_command s' = BLDC_command s
    /\ calls_since s s' = []
    /\ (1 <= hall_code env (reads (world s)) <= 6 -> 0 <= v <= 5)
    /\ (v = 6 <-> hall_code env (reads (world s)) = 0
                  \/ hall_code env (reads (world s)) = 7).
Proof.
  intros (_ & Hse & _) Hh Hin.
  assert (Hne : BLDC_SENSORLESS <> BLDC_HALL).
  { inversion Hse as [|? ? Hnin _]; subst. intros E; apply Hnin; left; auto. }
  pose proof (hall_code_range (reads (world s))) as Hc.
  set (code := hall_code env (reads (world s))) in *.
  assert (Hv : exists v,
    index (motor_hallToSector (BLDC_motor s)) code = Some v
    /\ 0 <= v <= 6
    /\ (1 <= code <= 6 -> 0 <= v <= 5)
    /\ (v = 6 <-> code = 0 \/ code = 7)).
  { assert (Hcases : code = 0 \/ code = 1 \/ code = 2 \/ code = 3
                     \/ code = 4 \/ code = 5 \/ code = 6 \/ code = 7) by lia.
    clearbody code. unfold hallToSector in Hin. cbn [In] in Hin.
    repeat (destruct Hin as [<- | Hin]); try contradiction;
      repeat (destruct Hcases as [-> | Hcases]); try subst code;
      (eexists; split; [reflexivity|]); lia. }
  destruct Hv as (v & Hv & Hr & H16 & H6).
  exists (with_motor (set_sector (s8 v)) (tick (tick (tick s)))), v.
  split; [apply determineSector_hall; [congruence | exact Hh | exact Hv]|].
  rewrite s8_small by lia.
  split; [exact Hv|]. split; [reflexivity|]. split; [reflexivity|].
  split; [reflexivity|].
  split; [unfold calls_since; cbn; apply skipn_all|].
  split; [exact H16 | exact H6].
Qed.

End Proofs.

(** * The rest of the file *)

Section Coverage.

Context {hdr : Header}.
Variable env : Env.

(** ** The static Hall table *)

Lemma row_cases (row : list Z) :
  In row hallToSector ->
  row = [6;1;3;2;5;0;4;6] \/ row = [6;0;2;1;4;5;3;6]
  \/ row = [6;5;1;0;3;4;2;6] \/ row = [6;4;0;5;2;3;1;6]
  \/ row = [6;3;5;4;1;2;0;6] \/ row = [6;2;4;3;0;1;5;6]
  \/ row = [6;4;2;3;0;5;1;6] \/ row = [6;3;1;2;5;4;0;6]
  \/ row = [6;2;0;1;4;3;5;6] \/ row = [6;1;5;0;3;2;4;6]
  \/ row = [6;0;4;5;2;1;3;6] \/ row = [6;5;3;4;1;0;2;6].
Proof.
  unfold hallToSector; cbn [In]. intros H.
  repeat (destruct H as [<- | H]; [tauto|]). contradiction.
Qed.

Lemma code_cases (c : Z) :
  1 <= c <= 6 -> c = 1 \/ c = 2 \/ c = 3 \/ c = 4 \/ c = 5 \/ c = 6.
Proof. lia. Qed.

Lemma index_code_range (row : list Z) (c v : Z) :
  length row = 8%nat -> index row c = Some v -> 0 <= c <= 7.
Proof.
  unfold index. intros Hlen. destruct (Z.ltb_spec c 0); [discriminate|].
  intros E. assert (Hn : (Z.to_nat c < length row)%nat).
  { apply nth_error_Some. rewrite E. discriminate. }
  lia.
Qed.

(** X1: Every row of the table has eight entries, holds the sentinel 6 at the
    codes 0 and 7, and maps the codes 1 to 6 one-to-one onto the sectors
    0 to 5. *)
Theorem hallToSector_row_bijection (row : list Z) :
  In row hallToSector ->
  length row = 8%nat
  /\ index row 0 = Some 6
  /\ index row 7 = Some 6
  /\ (forall c, 1 <= c <= 6 -> exists t, index row c = Some t /\ 0 <= t <= 5)
  /\ (forall t, 0 <= t <= 5 -> exists c, 1 <= c <= 6 /\ index row c = Some t)
  /\ (forall c1 c2 t, 1 <= c1 <= 6 -> 1 <= c2 <= 6 ->
        index row c1 = Some t -> index row c2 = Some t -> c1 = c2).
Proof.
  intros Hin. apply row_cases in Hin.
  repeat (destruct Hin as [-> | Hin]); try subst row;
    (split; [reflexivity|]); (split; [reflexivity|]); (split; [reflexivity|]);
    (split; [|split]).
  all: try (intros c Hc; apply code_cases in Hc;
            repeat (destruct Hc as [-> | Hc]); try subst c;
            eexists; (split; [reflexivity | lia])).
  all: try (intros t Ht; apply six_cases in Ht;
            repeat (destruct Ht as [-> | Ht]); try subst t;
            first [ exists 1; split; [lia | reflexivity]
                  | exists 2; split; [lia | reflexivity]
                  | exists 3; split; [lia | reflexivity]
                  | exists 4; split; [lia | reflexivity]
                  | exists 5; split; [lia | reflexivity]
                  | exists 6; split; [lia | reflexivity] ]).
  all: intros c1 c2 t H1 H2; apply code_cases in H1, H2;
    repeat (destruct H1 as [-> | H1]); try subst c1;
    repeat (destruct H2 as [-> | H2]); try subst c2;
    intros E1 E2; vm_compute in E1, E2; congruence.
Qed.

(** X2: The table is complete in the sense of the comment above it: rows 0
    to 5 are row 0 shifted by the row number, rows 6 to 11 the same for the
    opposite sense of rotation (the mirror image [5 - sector]). *)
Theorem hallToSector_rows_shift (k c : Z) :
  0 <= k <= 5 -> 1 <= c <= 6 ->
  exists v0,
    index2 hallToSector 0 c = Some v0
    /\ index2 hallToSector k c = Some ((v0 - k) mod 6)
    /\ index2 hallToSector (6 + k) c = Some ((5 - v0 - k) mod 6).
Proof.
  intros Hk Hc. apply six_cases in Hk. apply code_cases in Hc.
  repeat (destruct Hk as [-> | Hk]); try subst k;
    repeat (destruct Hc as [-> | Hc]); try subst c;
    eexists; (split; [reflexivity|]); split; reflexivity.
Qed.

(** X3: In every row the Hall codes of two sectors that follow each other
    (cyclically) differ in exactly one of the three Hall lines. *)
Theorem hallToSector_one_line_per_step (row : list Z) (c1 c2 t : Z) :
  In row hallToSector ->
  1 <= c1 <= 6 -> 1 <= c2 <= 6 ->
  index row c1 = Some t ->
  index row c2 = Some ((t + 1) mod 6) ->
  one_line_apart c1 c2 = true.
Proof.
  intros Hin H1 H2. apply row_cases in Hin. apply code_cases in H1, H2.
  repeat (destruct Hin as [-> | Hin]); try subst row;
    repeat (destruct H1 as [-> | H1]); try subst c1;
    repeat (destruct H2 as [-> | H2]); try subst c2;
    intros E1 E2; vm_compute in E1; injection E1 as <-;
    vm_compute in E2; first [reflexivity | discriminate].
Qed.

(** ** [BLDC_initPositionSensors] and [BLDC_initMotor] *)

Lemma list8 (t : list Z) :
  length t = 8%nat ->
  exists a b c d e f g h, t = [a; b; c; d; e; f; g; h].
Proof.
  intros H.
  do 8 (destruct t as [|? t]; [discriminate|]).
  destruct t; [|discriminate]. repeat eexists.
Qed.

Lemma table_index_cases (u : Z) :
  0 <= u < 12 ->
  u = 0 \/ u = 1 \/ u = 2 \/ u = 3 \/ u = 4 \/ u = 5 \/ u = 6 \/ u = 7
  \/ u = 8 \/ u = 9 \/ u = 10 \/ u = 11.
Proof. lia. Qed.

(** The copy loop: with a table index inside the static table, the eight
    entries of the selected row replace the motor's own table. *)
Lemma load_table_row (s : Sys) :
  length (motor_hallToSector (BLDC_motor s)) = 8%nat ->
  0 <= hallTableUtilized s < 12 ->
  exists row,
    nth_error hallToSector (Z.to_nat (hallTableUtilized s)) = Some row
    /\ exec (load_table 8 0) s = Some (with_motor (set_hallToSector row) s).
Proof.
  destruct s as [[st se du t1 t2 t3 pa pb pc pt di sn tb] c u w].
  cbn [BLDC_motor motor_hallToSector hallTableUtilized].
  intros Hlen Hu.
  destruct (list8 tb Hlen) as (a & b & c0 & d & e & f & g & h & ->).
  apply table_index_cases in Hu.
  repeat (destruct Hu as [-> | Hu]); try subst u;
    (eexists; split; [reflexivity | vm_compute; reflexivity]).
Qed.

(** Outside the static table the copy loop reads out of bounds. *)
Lemma load_table_out_of_range (s : Sys) :
  hallTableUtilized s < 0 \/ 12 <= hallTableUtilized s ->
  exec (load_table 8 0) s = None.
Proof.
  intros Hu.
  assert (E : index2 hallToSector (hallTableUtilized s) 0 = None).
  { unfold index2. destruct (Z.ltb_spec (hallTableUtilized s) 0);
      [reflexivity|].
    destruct Hu as [Hu|Hu]; [lia|].
    replace (nth_error hallToSector (Z.to_nat (hallTableUtilized s)))
      with (@None (list Z)); [reflexivity|].
    symmetry. apply nth_error_None. cbn [length hallToSector]. lia. }
  cbn [load_table]. unfold exec, bind. rewrite E. reflexivity.
Qed.

Lemma initPositionSensors_exec (s : Sys) :
  exec (BLDC_initPositionSensors env) s
  = let s3 := tick (tick (tick
                (mk_sys (BLDC_motor s) (BLDC_command s) (hallTableUtilized s)
                   (mk_world (reads (world s)) (pwm_calls (world s))
                             (pwm_freq (world s)) true
                             (adc1_handler (world s)))))) in
    if negb (hall_code env (reads (world s)) =? 0)
       && negb (hall_code env (reads (world s)) =? 7)
    then exec (load_table 8 0) (with_motor (set_sensor BLDC_HALL) s3)
    else Some s3.
Proof.
  unfold BLDC_initPositionSensors.
  rewrite exec_seq.
  change (exec GPIO_pinSetup_hall s)
    with (Some (mk_sys (BLDC_motor s) (BLDC_command s) (hallTableUtilized s)
                   (mk_world (reads (world s)) (pwm_calls (world s))
                             (pwm_freq (world s)) true
                             (adc1_handler (world s))))).
  cbn iota beta. rewrite exec_bind, read_hallValue_run.
  cbn [world reads]. cbn zeta.
  destruct (negb _ && negb _); [|reflexivity].
  rewrite exec_seq. reflexivity.
Qed.

Lemma initPositionSensors_run (s : Sys) :
  length (motor_hallToSector (BLDC_motor s)) = 8%nat ->
  0 <= hallTableUtilized s < 12 ->
  exists row,
    nth_error hallToSector (Z.to_nat (hallTableUtilized s)) = Some row
    /\ exec (BLDC_initPositionSensors env) s
       = Some (mk_sys
                 (if negb (hall_code env (reads (world s)) =? 0)
                     && negb (hall_code env (reads (world s)) =? 7)
                  then set_hallToSector row
                         (set_sensor BLDC_HALL (BLDC_motor s))
                  else BLDC_motor s)
                 (BLDC_command s) (hallTableUtilized s)
                 (mk_world (3 + reads (world s)) (pwm_calls (world s))
                           (pwm_freq (world s)) true
                           (adc1_handler (world s)))).
Proof.
  intros Hlen Hu. rewrite initPositionSensors_exec. cbn zeta.
  match goal with
  | |- context [exec (load_table 8 0) ?x] =>
      destruct (load_table_row x Hlen Hu) as (row & Hrow & Hload)
  end.
  exists row. split; [exact Hrow|].
  destruct (negb _ && negb _); [rewrite Hload|]; reflexivity.
Qed.

(** X4: [BLDC_initPositionSensors]: the three Hall lines are sampled once.  On
    a code from 1 to 6 the sensor kind becomes [BLDC_HALL] and the row
    selected by [hallTableUtilized] is copied into the motor's own table;
    on code 0 or 7 the motor is left exactly as it was (sensor kind and
    table included).  Nothing else changes and no phase is programmed. *)
Theorem initPositionSensors_spec (s : Sys) :
  length (motor_hallToSector (BLDC_motor s)) = 8%nat ->
  0 <= hallTableUtilized s < 12 ->
  exists s',
    exec (BLDC_initPositionSensors env) s = Some s'
    /\ (1 <= hall_code env (reads (world s)) <= 6 ->
        sensor (BLDC_motor s') = BLDC_HALL
        /\ nth_error hallToSector (Z.to_nat (hallTableUtilized s))
           = Some (motor_hallToSector (BLDC_motor s'))
        /\ BLDC_motor s'
           = set_hallToSector (motor_hallToSector (BLDC_motor s'))
               (set_sensor BLDC_HALL (BLDC_motor s)))
    /\ (hall_code env (reads (world s)) = 0
        \/ hall_code env (reads (world s)) = 7 ->
        BLDC_motor s' = BLDC_motor s)
    /\ BLDC_command s' = BLDC_command s
    /\ hallTableUtilized s' = hallTableUtilized s
    /\ calls_since s s' = []
    /\ reads (world s') = (3 + reads (world s))%nat
    /\ hall_pins_input (world s') = true.
Proof.
  intros Hlen Hu.
  destruct (initPositionSensors_run s Hlen Hu) as (row & Hrow & E).
  rewrite E. eexists. split; [reflexivity|].
  cbn [BLDC_motor BLDC_command hallTableUtilized world reads
       hall_pins_input].
  split; [|split].
  - intros Hc.
    replace (hall_code env (reads (world s)) =? 0) with false
      by (symmetry; apply Z.eqb_neq; lia).
    replace (hall_code env (reads (world s)) =? 7) with false
      by (symmetry; apply Z.eqb_neq; lia).
    cbn [negb andb]. split; [reflexivity|]. split; [exact Hrow | reflexivity].
  - intros [E0|E7].
    + rewrite E0. reflexivity.
    + rewrite E7. reflexivity.
  - repeat split. unfold calls_since; cbn. apply skipn_all.
Qed.

(** X5: With [hallTableUtilized] outside the twelve rows and a valid Hall code
    on the lines, the copy loop indexes the static table out of bounds. *)
Theorem initPositionSensors_bad_table_index (s : Sys) :
  hallTableUtilized s < 0 \/ 12 <= hallTableUtilized s ->
  1 <= hall_code env (reads (world s)) <= 6 ->
  exec (BLDC_initPositionSensors env) s = None.
Proof.
  intros Hu Hc. rewrite initPositionSensors_exec. cbn zeta.
  replace (hall_code env (reads (world s)) =? 0) with false
    by (symmetry; apply Z.eqb_neq; lia).
  replace (hall_code env (reads (world s)) =? 7) with false
    by (symmetry; apply Z.eqb_neq; lia).
  cbn [negb andb]. apply load_table_out_of_range. exact Hu.
Qed.

(** The state [BLDC_initMotor] hands to [BLDC_initPositionSensors]. *)
Lemma initMotor_exec (s : Sys) :
  exec (BLDC_initMotor env) s
  = match exec (BLDC_initPositionSensors env)
            (mk_sys (set_state BLDC_STOPPED (BLDC_motor s))
                    (mk_command (c_bool BLDC_POS)
                       (cmd_dutyCycle (BLDC_command s)))
                    (hallTableUtilized s)
                    (mk_world (reads (world s))
                              (pwm_calls (world s) ++ stop_calls)
                              (Some 16000) (hall_pins_input (world s))
                              (adc1_handler (world s)))) with
    | Some s5 =>
        Some (mk_sys (BLDC_motor s5) (BLDC_command s5) (hallTableUtilized s5)
                (mk_world (reads (world s5)) (pwm_calls (world s5))
                          (pwm_freq (world s5)) (hall_pins_input (world s5))
                          true))
    | None => None
    end.
Proof.
  destruct s as [m [cd cu] u [r cl fq hp ad]].
  unfold BLDC_initMotor, BLDC_stopMotor, BLDC_commandDirection,
    MPWM_initMotorPwm, MPWM_setMotorPwmFreq, ADC_initAdc1Interrupt,
    stop_calls.
  cbv [exec bind ret modify_motor modify_command modify_world
       MPWM_setPhaseDutyCycle BLDC_motor BLDC_command hallTableUtilized world
       reads pwm_calls pwm_freq hall_pins_input adc1_handler
       cmd_direction cmd_dutyCycle].
  rewrite app_calls.
  destruct (BLDC_initPositionSensors env _) as [[[] s5]|]; reflexivity.
Qed.

(** X6: [BLDC_initMotor] from any state with a table index inside the static
    table: the three phases are programmed dormant at duty 0, the PWM
    frequency is 16000, the state is [BLDC_STOPPED], the pending direction
    [BLDC_POS] as a [bool] (which is [BLDC_POS] itself when that is 0 or
    1), the ADC handler registered.  The sector, the duty cycle,
    the pending duty cycle and the dormant-phase pointer keep their
    values.  The sensor kind is [BLDC_HALL] with the selected row loaded
    when the Hall code is 1 to 6, and stays what it was on code 0 or 7. *)
Theorem initMotor_spec (s : Sys) :
  length (motor_hallToSector (BLDC_motor s)) = 8%nat ->
  0 <= hallTableUtilized s < 12 ->
  exists s',
    exec (BLDC_initMotor env) s = Some s'
    /\ state (BLDC_motor s') = BLDC_STOPPED
    /\ cmd_direction (BLDC_command s') = c_bool BLDC_POS
    /\ (BLDC_POS = 0 \/ BLDC_POS = 1 ->
        cmd_direction (BLDC_command s') = BLDC_POS)
    /\ cmd_dutyCycle (BLDC_command s') = cmd_dutyCycle (BLDC_command s)
    /\ calls_since s s' = stop_calls
    /\ pwm_freq (world s') = Some 16000
    /\ adc1_handler (world s') = true
    /\ sector (BLDC_motor s') = sector (BLDC_motor s)
    /\ dutyCycle (BLDC_motor s') = dutyCycle (BLDC_motor s)
    /\ dormantPhasePtr (BLDC_motor s') = dormantPhasePtr (BLDC_motor s)
    /\ (1 <= hall_code env (reads (world s)) <= 6 ->
        sensor (BLDC_motor s') = BLDC_HALL
        /\ nth_error hallToSector (Z.to_nat (hallTableUtilized s))
           = Some (motor_hallToSector (BLDC_motor s')))
    /\ (hall_code env (reads (world s)) = 0
        \/ hall_code env (reads (world s)) = 7 ->
        sensor (BLDC_motor s') = sensor (BLDC_motor s)
        /\ motor_hallToSector (BLDC_motor s')
           = motor_hallToSector (BLDC_motor s)).
Proof.
  intros Hlen Hu. rewrite initMotor_exec.
  match goal with
  | |- context [exec (BLDC_initPositionSensors env) ?x] =>
      destruct (initPositionSensors_run x Hlen Hu) as (row & Hrow & E)
  end.
  rewrite E. eexists. split; [reflexivity|].
  cbn [BLDC_motor BLDC_command hallTableUtilized world reads pwm_calls
       pwm_freq adc1_handler cmd_direction cmd_dutyCycle] in *.
  assert (Hfix : forall (b : bool),
    state (if b then set_hallToSector row
                      (set_sensor BLDC_HALL
                         (set_state BLDC_STOPPED (BLDC_motor s)))
           else set_state BLDC_STOPPED (BLDC_motor s)) = BLDC_STOPPED
    /\ sector (if b then set_hallToSector row
                      (set_sensor BLDC_HALL
                         (set_state BLDC_STOPPED (BLDC_motor s)))
               else set_state BLDC_STOPPED (BLDC_motor s))
       = sector (BLDC_motor s)
    /\ dutyCycle (if b then set_hallToSector row
                      (set_sensor BLDC_HALL
                         (set_state BLDC_STOPPED (BLDC_motor s)))
                  else set_state BLDC_STOPPED (BLDC_motor s))
       = dutyCycle (BLDC_motor s)
    /\ dormantPhasePtr (if b then set_hallToSector row
                      (set_sensor BLDC_HALL
                         (set_state BLDC_STOPPED (BLDC_motor s)))
                  else set_state BLDC_STOPPED (BLDC_motor s))
       = dormantPhasePtr (BLDC_motor s)).
  { intros []; repeat split. }
  destruct (Hfix (negb (hall_code env (reads (world s)) =? 0)
                  && negb (hall_code env (reads (world s)) =? 7)))
    as (H1 & H2 & H3 & H4).
  split; [exact H1|]. split; [reflexivity|].
  split; [intros [E0|E1]; [rewrite E0 | rewrite E1]; reflexivity|].
  split; [reflexivity|].
  split; [apply calls_since_app; reflexivity|].
  split; [reflexivity|]. split; [reflexivity|].
  split; [exact H2|]. split; [exact H3|]. split; [exact H4|].
  split.
  - intros Hc.
    replace (hall_code env (reads (world s)) =? 0) with false
      by (symmetry; apply Z.eqb_neq; lia).
    replace (hall_code env (reads (world s)) =? 7) with false
      by (symmetry; apply Z.eqb_neq; lia).
    cbn [negb andb]. split; [reflexivity | exact Hrow].
  - intros [E0|E7].
    + rewrite E0. split; reflexivity.
    + rewrite E7. split; reflexivity.
Qed.

(** ** More on [BLDC_commutate] *)

Lemma mod6_range (x : Z) : 0 <= x mod 6 <= 5.
Proof. pose proof (Z.mod_pos_bound x 6). lia. Qed.

Lemma commutate_post_settings (s : Sys) (d h l : Z) :
  same_settings s (commutate_post env s d h l)
  /\ phaseA (BLDC_motor (commutate_post env s d h l)) = phaseA (BLDC_motor s)
  /\ phaseB (BLDC_motor (commutate_post env s d h l)) = phaseB (BLDC_motor s)
  /\ phaseC (BLDC_motor (commutate_post env s d h l)) = phaseC (BLDC_motor s).
Proof.
  unfold same_settings, commutate_post.
  destruct (state (BLDC_motor s) =? BLDC_STARTING); repeat split.
Qed.

(** X7: A commutation writes the sector and the dormant-phase pointer and
    nothing else of the motor, except the time stamp: in [BLDC_STARTING]
    it reads the clock once and stores it as [startCommutationTimeAbs]; in
    any other state it neither reads the clock nor touches the stamp. *)
Theorem commutate_time_stamp (s : Sys) :
  0 <= sector (BLDC_motor s) <= 6 ->
  exists s',
    exec (BLDC_commutate env) s = Some s'
    /\ same_settings s s'
    /\ state (BLDC_motor s') = state (BLDC_motor s)
    /\ phaseA (BLDC_motor s') = phaseA (BLDC_motor s)
    /\ phaseB (BLDC_motor s') = phaseB (BLDC_motor s)
    /\ phaseC (BLDC_motor s') = phaseC (BLDC_motor s)
    /\ (state (BLDC_motor s) = BLDC_STARTING ->
        startCommutationTimeAbs (BLDC_motor s')
        = u32 (MSTMR_value env (reads (world s)))
        /\ reads (world s') = S (reads (world s)))
    /\ (state (BLDC_motor s) <> BLDC_STARTING ->
        startCommutationTimeAbs (BLDC_motor s')
        = startCommutationTimeAbs (BLDC_motor s)
        /\ reads (world s') = reads (world s)).
Proof.
  intros H.
  destruct (commutate_defined env s) as (d & h & l & Hex & _); [lia|].
  cbn zeta in Hex. eexists. split; [exact Hex|].
  destruct (commutate_post_settings s d h l) as (Hs & Ha & Hb & Hc).
  split; [exact Hs|]. split; [apply commutate_post_state|].
  split; [exact Ha|]. split; [exact Hb|]. split; [exact Hc|].
  unfold commutate_post. split; intros Hst.
  - rewrite Hst, Z.eqb_refl. split; reflexivity.
  - apply Z.eqb_neq in Hst. rewrite Hst. split; reflexivity.
Qed.

(** X8: A commutation under one direction followed by a commutation under the
    other direction brings the sector back. *)
Theorem commutate_reverse (s : Sys) :
  header_wf hdr ->
  0 <= sector (BLDC_motor s) <= 5 ->
  (direction (BLDC_motor s) = BLDC_POS ->
   exists s1 s2,
     exec (BLDC_commutate env) s = Some s1
     /\ exec (BLDC_commutate env) (with_motor (set_direction BLDC_NEG) s1)
        = Some s2
     /\ sector (BLDC_motor s2) = sector (BLDC_motor s))
  /\ (direction (BLDC_motor s) = BLDC_NEG ->
      exists s1 s2,
        exec (BLDC_commutate env) s = Some s1
        /\ exec (BLDC_commutate env) (with_motor (set_direction BLDC_POS) s1)
           = Some s2
        /\ sector (BLDC_motor s2) = sector (BLDC_motor s)).
Proof.
  intros (_ & _ & _ & Hpn) H.
  destruct (commutate_defined env s) as (d & h & l & Hex & _); [lia|].
  cbn zeta in Hex.
  pose proof (commutate_post_sector env s d h l) as Hs1.
  pose proof (advance_range (direction (BLDC_motor s))
                (sector (BLDC_motor s)) ltac:(lia)) as Hr.
  split; intros Hd.
  - destruct (commutate_defined env
                (with_motor (set_direction BLDC_NEG)
                   (commutate_post env s d h l)))
      as (d2 & h2 & l2 & Hex2 & _).
    { cbn [with_motor BLDC_motor set_direction sector]. rewrite Hs1. lia. }
    cbn zeta in Hex2. do 2 eexists. split; [exact Hex|].
    split; [exact Hex2|]. rewrite commutate_post_sector.
    cbn [with_motor BLDC_motor set_direction sector direction].
    rewrite Hs1, Hd, advance_pos by lia.
    rewrite advance_neg; [|congruence|apply mod6_range].
    apply six_cases in H.
    repeat (destruct H as [-> | H]); try rewrite H; reflexivity.
  - destruct (commutate_defined env
                (with_motor (set_direction BLDC_POS)
                   (commutate_post env s d h l)))
      as (d2 & h2 & l2 & Hex2 & _).
    { cbn [with_motor BLDC_motor set_direction sector]. rewrite Hs1. lia. }
    cbn zeta in Hex2. do 2 eexists. split; [exact Hex|].
    split; [exact Hex2|]. rewrite commutate_post_sector.
    cbn [with_motor BLDC_motor set_direction sector direction].
    rewrite Hs1, Hd, (advance_neg BLDC_NEG) by (try lia; congruence).
    rewrite advance_pos by apply mod6_range.
    apply six_cases in H.
    repeat (destruct H as [-> | H]); try rewrite H; reflexivity.
Qed.

(** X9: The two driven phases sit symmetrically around mid-scale: the low
    side is at most 32767, the high side at least 32767, and they are
    apart by the duty cycle rounded down to an even number. *)
Theorem commutate_duty_difference (s : Sys) :
  0 <= sector (BLDC_motor s) <= 5 ->
  0 <= dutyCycle (BLDC_motor s) <= 65535 ->
  exists s' d h l hi lo,
    exec (BLDC_commutate env) s = Some s'
    /\ calls_since s s'
       = [ mk_pwm d MPWM_DORMANT (dutyCycle (BLDC_motor s));
           mk_pwm h MPWM_HI_STATE hi;
           mk_pwm l MPWM_HI_STATE lo ]
    /\ lo <= 32767 <= hi
    /\ hi - lo = dutyCycle (BLDC_motor s) - dutyCycle (BLDC_motor s) mod 2.
Proof.
  intros H Hduty.
  destruct (commutate_defined env s) as (d & h & l & Hex & _); [lia|].
  cbn zeta in Hex.
  destruct (duty_split _ Hduty) as (_ & Hhi & Hlo).
  exists (commutate_post env s d h l), d, h, l,
    (highSideDuty (dutyCycle (BLDC_motor s))),
    (lowSideDuty (dutyCycle (BLDC_motor s))).
  split; [exact Hex|].
  split; [apply calls_since_app, commutate_post_calls|].
  rewrite Hhi, Hlo, Z.shiftr_div_pow2 by lia. change (2 ^ 1) with 2.
  split; Z.div_mod_to_equations; lia.
Qed.

(** X10: After a commutation the dormant-phase pointer names the voltage field
    of the very phase that was just programmed dormant: phase C in sectors
    0 and 3, phase B in 1 and 4, phase A in 2 and 5. *)
Theorem commutate_dormant_pointer (s : Sys) :
  header_wf hdr ->
  0 <= sector (BLDC_motor s) <= 5 ->
  exists s' d,
    exec (BLDC_commutate env) s = Some s'
    /\ nth_error (calls_since s s') 0
       = Some (mk_pwm d MPWM_DORMANT (dutyCycle (BLDC_motor s)))
    /\ dormantPhasePtr (BLDC_motor s')
       = Some (dormant_of_sector (sector (BLDC_motor s')))
    /\ (dormant_of_sector (sector (BLDC_motor s')) = FieldPhaseA ->
        d = MPWM_PH_A)
    /\ (dormant_of_sector (sector (BLDC_motor s')) = FieldPhaseB ->
        d = MPWM_PH_B)
    /\ (dormant_of_sector (sector (BLDC_motor s')) = FieldPhaseC ->
        d = MPWM_PH_C).
Proof.
  intros (_ & _ & Hph & _) H.
  assert (Hab : MPWM_PH_A <> MPWM_PH_B /\ MPWM_PH_A <> MPWM_PH_C
                /\ MPWM_PH_B <> MPWM_PH_C).
  { apply NoDup_cons_iff in Hph as (H1 & Hph).
    apply NoDup_cons_iff in Hph as (H2 & _).
    cbn [In] in H1, H2. repeat split; intros E; [apply H1 | apply H1 | apply H2];
      rewrite E; tauto. }
  destruct Hab as (Hab & Hac & Hbc).
  destruct (commutate_defined env s) as (d & h & l & Hex & Hd & _); [lia|].
  cbn zeta in Hex, Hd.
  exists (commutate_post env s d h l), d.
  split; [exact Hex|].
  rewrite (calls_since_app s _ _ (commutate_post_calls env s d h l)).
  split; [reflexivity|].
  rewrite commutate_post_sector, commutate_post_ptr.
  pose proof (advance_range (direction (BLDC_motor s))
                (sector (BLDC_motor s)) ltac:(lia)) as Ha.
  apply six_cases in Ha. unfold dormant_field.
  repeat (destruct Ha as [Ha | Ha]); rewrite Ha in Hd |- *;
    cbn in Hd; injection Hd as <-; cbn [dormant_of_sector];
    rewrite ?Z.eqb_refl;
    repeat match goal with
           | |- context [?a =? ?b] =>
               replace (a =? b) with false
                 by (symmetry; apply Z.eqb_neq; congruence)
           end;
    repeat split; intros; congruence.
Qed.

(** ** More on [BLDC_adcInterrupt] *)

Lemma same_settings_refl (s : Sys) : same_settings s s.
Proof. unfold same_settings. repeat split. Qed.

Lemma same_settings_trans (s1 s2 s3 : Sys) :
  same_settings s1 s2 -> same_settings s2 s3 -> same_settings s1 s3.
Proof.
  unfold same_settings.
  intros (A1 & A2 & A3 & A4 & A5 & A6 & A7 & A8)
         (B1 & B2 & B3 & B4 & B5 & B6 & B7 & B8).
  repeat split; congruence.
Qed.

(** The four conversions at the head of the handler. *)
Lemma sample_prefix (k : Z -> M unit) (s : Sys) :
  exec (a <- ADC_getVoltage env ADC_PH_A ;;
        b <- ADC_getVoltage env ADC_PH_B ;;
        c <- ADC_getVoltage env ADC_PH_C ;;
        modify_motor (set_phases a b c) ;;
        bus <- ADC_getVoltage env ADC_V_BUS ;;
        k bus) s
  = exec (k (u16 (ADC_value env (3 + reads (world s)) ADC_V_BUS)))
         (sampled env s).
Proof. reflexivity. Qed.

(** X11: The handler overwrites the three stored phase voltages before it
    looks at anything: what they held before the event has no influence
    on what the event does. *)
Theorem adcInterrupt_ignores_old_samples (s : Sys) (a b c : Z) :
  exec (BLDC_adcInterrupt env) (with_motor (set_phases a b c) s)
  = exec (BLDC_adcInterrupt env) s.
Proof.
  unfold BLDC_adcInterrupt.
  rewrite (sample_prefix _ (with_motor (set_phases a b c) s)).
  rewrite (sample_prefix _ s).
  destruct s as [[] ? ? ?]. reflexivity.
Qed.

(** One conditional commutation, as the [BLDC_STARTING] case has two. *)
Lemma maybe_commutate (b : bool) (s : Sys) :
  sector_in_range s ->
  exists s',
    (if b then exec (BLDC_commutate env) s else Some s) = Some s'
    /\ sector_in_range s'
    /\ same_settings s s'
    /\ state (BLDC_motor s') = state (BLDC_motor s)
    /\ phaseA (BLDC_motor s') = phaseA (BLDC_motor s)
    /\ phaseB (BLDC_motor s') = phaseB (BLDC_motor s)
    /\ phaseC (BLDC_motor s') = phaseC (BLDC_motor s)
    /\ (dormantPhasePtr (BLDC_motor s) <> None ->
        dormantPhasePtr (BLDC_motor s') <> None)
    /\ (b = false -> calls_since s s' = []).
Proof.
  intros Hs. destruct b.
  - destruct (commutate_defined env s) as (d & h & l & Hex & _ & _ & _ & _ & Hf).
    { unfold sector_in_range in Hs. lia. }
    cbn zeta in Hex. eexists. split; [exact Hex|].
    destruct (commutate_post_settings s d h l) as (H1 & H2 & H3 & H4).
    split.
    { unfold sector_in_range. rewrite commutate_post_sector.
      apply advance_range. unfold sector_in_range in Hs. lia. }
    split; [exact H1|]. split; [apply commutate_post_state|].
    split; [exact H2|]. split; [exact H3|]. split; [exact H4|].
    split; [|discriminate].
    intros _. rewrite commutate_post_ptr. exact Hf.
  - exists s. split; [reflexivity|]. split; [exact Hs|].
    split; [apply same_settings_refl|]. repeat split; auto.
    intros _. unfold calls_since. apply skipn_all.
Qed.

Lemma adcInterrupt_settings (s : Sys) :
  header_wf hdr -> motor_inv s ->
  exists s',
    exec (BLDC_adcInterrupt env) s = Some s'
    /\ motor_inv s'
    /\ same_settings s s'
    /\ fresh_phases env s s'
    /\ (state (BLDC_motor s') = state (BLDC_motor s)
        \/ (state (BLDC_motor s) = BLDC_LOCKED
            /\ state (BLDC_motor s') = BLDC_STOPPED)).
Proof.
  intros Hwf Hinv.
  destruct (states_distinct Hwf) as (Hls & Hlg & _ & Hsg & _).
  destruct (Z.eq_dec (state (BLDC_motor s)) BLDC_STARTING) as [Hst|Hst].
  - destruct Hinv as (Hs & Ht & Hp).
    destruct (dormantPhasePtr (BLDC_motor s)) as [p|] eqn:Ep;
      [|exfalso; apply (Hp Hst); reflexivity].
    rewrite (adcInterrupt_starting env s p Hwf Hst Ep).
    destruct (maybe_commutate
                (zero_crossing p (neutralVoltage env s) (sampled env s))
                (sampled env s) Hs)
      as (sb & -> & Hsb & Hset & Hstb & Ha & Hb & Hc & Hpb & _).
    destruct (maybe_commutate (stalled env sb) (tick sb) Hsb)
      as (sc & -> & Hsc & Hset2 & Hstc & Ha2 & Hb2 & Hc2 & Hpc & _).
    exists sc. split; [reflexivity|].
    assert (Hall : same_settings s sc).
    { apply (same_settings_trans s sb); [exact Hset|].
      apply (same_settings_trans sb (tick sb)); [|exact Hset2].
      unfold same_settings. repeat split. }
    split.
    { split; [exact Hsc|]. split.
      - destruct Hall as (_ & _ & _ & Htab & _).
        unfold table_ok in *. rewrite Htab. exact Ht.
      - intros _. apply Hpc. apply Hpb. cbn. rewrite Ep. discriminate. }
    split; [exact Hall|]. split.
    { unfold fresh_phases. rewrite Ha2, Hb2, Hc2.
      cbn [tick BLDC_motor]. rewrite Ha, Hb, Hc. repeat split. }
    left. rewrite Hstc. cbn [tick BLDC_motor]. rewrite Hstb. reflexivity.
  - destruct (Z.eq_dec (state (BLDC_motor s)) BLDC_LOCKED) as [Hl|Hl].
    + rewrite (adcInterrupt_locked env s Hl).
      destruct (_ >? _).
      * eexists. split; [reflexivity|]. split.
        { apply (motor_inv_same s); [reflexivity | reflexivity | | exact Hinv].
          cbn. intros E; congruence. }
        split; [unfold same_settings; repeat split|].
        split; [unfold fresh_phases; repeat split|].
        right. split; [exact Hl | reflexivity].
      * eexists. split; [reflexivity|]. split.
        { apply (motor_inv_same s); [reflexivity | reflexivity | | exact Hinv].
          cbn. intros E; congruence. }
        split; [unfold same_settings; repeat split|].
        split; [unfold fresh_phases; repeat split|].
        left. reflexivity.
    + rewrite (adcInterrupt_idle env s Hl Hst).
      eexists. split; [reflexivity|]. split.
      { apply (motor_inv_same s); [reflexivity | reflexivity | | exact Hinv].
        cbn. intros E; congruence. }
      split; [unfold same_settings; repeat split|].
      split; [unfold fresh_phases; repeat split|].
      left. reflexivity.
Qed.

(** X12: A sampling event, in whatever state, stores the three fresh phase
    voltages and may move the sector, the dormant-phase pointer and the
    commutation time stamp; it never changes the duty cycle, the
    direction, the sensor kind, the Hall table, the start and lock times
    or the pending command, and the only state change it can make is
    [BLDC_LOCKED] to [BLDC_STOPPED]. *)
Theorem adcInterrupt_frame (s : Sys) :
  header_wf hdr -> motor_inv s ->
  exists s',
    exec (BLDC_adcInterrupt env) s = Some s'
    /\ same_settings s s'
    /\ fresh_phases env s s'
    /\ (state (BLDC_motor s') = state (BLDC_motor s)
        \/ (state (BLDC_motor s) = BLDC_LOCKED
            /\ state (BLDC_motor s') = BLDC_STOPPED)).
Proof.
  intros Hwf Hinv.
  destruct (adcInterrupt_settings s Hwf Hinv) as (s' & E & _ & H1 & H2 & H3).
  exists s'. auto.
Qed.

(** X13: In [BLDC_STOPPED] and in [BLDC_RUNNING] the handler reads the four
    conversions, stores the three phase voltages and returns: no clock
    read, no phase programmed, nothing else written. *)
Theorem adcInterrupt_stopped_running (s : Sys) :
  header_wf hdr ->
  state (BLDC_motor s) = BLDC_STOPPED \/ state (BLDC_motor s) = BLDC_RUNNING ->
  exists s',
    exec (BLDC_adcInterrupt env) s = Some s'
    /\ BLDC_motor s'
       = set_phases (u16 (ADC_value env (reads (world s)) ADC_PH_A))
           (u16 (ADC_value env (S (reads (world s))) ADC_PH_B))
           (u16 (ADC_value env (S (S (reads (world s)))) ADC_PH_C))
           (BLDC_motor s)
    /\ BLDC_command s' = BLDC_command s
    /\ reads (world s') = (4 + reads (world s))%nat
    /\ calls_since s s' = [].
Proof.
  intros Hwf Hst.
  destruct (states_distinct Hwf) as (H1 & H2 & H3 & H4 & H5 & H6).
  rewrite adcInterrupt_idle by (destruct Hst; congruence).
  eexists. split; [reflexivity|]. repeat split.
  unfold calls_since; cbn. apply skipn_all.
Qed.

(** X14: The state [BLDC_startMotor] is in between its assignment of
    [BLDC_STARTING] and its first commutation still has the NULL
    dormant-phase pointer of a motor that has never commutated; the
    handler run on that state dereferences NULL. *)
Theorem adcInterrupt_inside_first_start (s : Sys) :
  header_wf hdr ->
  dormantPhasePtr (BLDC_motor s) = None ->
  state (BLDC_motor (start_entry env s)) = BLDC_STARTING
  /\ exec (BLDC_adcInterrupt env) (start_entry env s) = None.
Proof.
  intros Hwf Hp. split; [reflexivity|].
  apply adcInterrupt_starting_null; [exact Hwf | reflexivity | exact Hp].
Qed.

(** ** More on [BLDC_startMotor] and on runs of operations *)

Lemma startMotor_run (s : Sys) :
  header_wf hdr -> table_ok s ->
  state (BLDC_motor s) = BLDC_STOPPED ->
  exists s1 d h l,
    exec (BLDC_determineSector env) (start_entry env s) = Some s1
    /\ exec (BLDC_startMotor env) s = Some (commutate_post env s1 d h l)
    /\ 0 <= sector (BLDC_motor s1) <= 6
    /\ BLDC_motor s1
       = set_sector (sector (BLDC_motor s1))
           (BLDC_motor (start_entry env s))
    /\ BLDC_command s1 = BLDC_command s
    /\ dormant_field d <> None.
Proof.
  intros Hwf Ht Hst.
  destruct (determineSector_defined env (start_entry env s) Hwf Ht)
    as (s1 & Hdet & Hr1 & Hm1 & Hc1 & _); [cbn; lia|].
  destruct (commutate_defined env s1) as (d & h & l & Hex & _ & _ & _ & _ & Hf);
    [lia|].
  cbn zeta in Hex. exists s1, d, h, l.
  rewrite (startMotor_stopped env s Hst), Hdet, Hex. auto 10.
Qed.

(** X15: A second [BLDC_startMotor] right after the first changes nothing: the
    first one has left [BLDC_STOPPED] (or was itself refused), so the
    second is refused. *)
Theorem startMotor_twice (s : Sys) :
  header_wf hdr -> table_ok s ->
  exists s',
    exec (BLDC_startMotor env) s = Some s'
    /\ exec (BLDC_startMotor env ;; BLDC_startMotor env) s = Some s'.
Proof.
  intros Hwf Ht.
  destruct (states_distinct Hwf) as (_ & _ & _ & Hsg & _).
  destruct (Z.eq_dec (state (BLDC_motor s)) BLDC_STOPPED) as [Hst|Hst].
  - destruct (startMotor_run s Hwf Ht Hst)
      as (s1 & d & h & l & _ & E & _ & Hm1 & _).
    eexists. split; [exact E|]. rewrite exec_seq, E.
    apply startMotor_not_stopped.
    rewrite commutate_post_state, Hm1. cbn. congruence.
  - exists s. rewrite exec_seq, !(startMotor_not_stopped env s Hst).
    split; reflexivity.
Qed.

(** X16: A start without Hall sensor reads no Hall line: the sector is reset to
    0 and commutated once, so the motor starts in sector 1 in the positive
    direction and in sector 5 otherwise.  Only the clock is read, twice. *)
Theorem startMotor_sensorless_sector (s : Sys) :
  header_wf hdr ->
  state (BLDC_motor s) = BLDC_STOPPED ->
  sensor (BLDC_motor s) <> BLDC_HALL ->
  exists s',
    exec (BLDC_startMotor env) s = Some s'
    /\ (cmd_direction (BLDC_command s) = BLDC_POS ->
        sector (BLDC_motor s') = 1)
    /\ (cmd_direction (BLDC_command s) <> BLDC_POS ->
        sector (BLDC_motor s') = 5)
    /\ reads (world s') = (2 + reads (world s))%nat.
Proof.
  intros Hwf Hst Hsen.
  rewrite (startMotor_stopped env s Hst).
  rewrite determineSector_sensorless by exact Hsen.
  destruct (commutate_defined env (start_entry env s))
    as (d & h & l & Hex & _); [cbn; lia|].
  cbn zeta in Hex. rewrite Hex. eexists. split; [reflexivity|].
  rewrite commutate_post_sector.
  cbn [start_entry tick with_motor BLDC_motor set_direction set_dutyCycle
       set_startTimeAbs set_state set_sector direction sector].
  split; [|split].
  - intros Hd. rewrite Hd. unfold advance. rewrite Z.eqb_refl. reflexivity.
  - intros Hd. unfold advance. apply Z.eqb_neq in Hd. rewrite Hd. reflexivity.
  - unfold commutate_post.
    cbn [start_entry tick with_motor BLDC_motor set_direction set_dutyCycle
         set_startTimeAbs set_state set_sector state].
    rewrite Z.eqb_refl. reflexivity.
Qed.

Lemma row_lookup_valid (row : list Z) (c : Z) :
  In row hallToSector -> 1 <= c <= 6 ->
  exists v, index row c = Some v /\ 0 <= v <= 5.
Proof.
  intros Hin Hc. apply row_cases in Hin. apply code_cases in Hc.
  repeat (destruct Hin as [-> | Hin]); try subst row;
    repeat (destruct Hc as [-> | Hc]); try subst c;
    eexists; (split; [reflexivity | lia]).
Qed.

(** X17: A start with Hall sensor and a valid code on the lines: the sector
    the table gives for the code is stepped once in the commanded
    direction before the phases are first driven. *)
Theorem startMotor_hall_sector (s : Sys) :
  header_wf hdr ->
  state (BLDC_motor s) = BLDC_STOPPED ->
  sensor (BLDC_motor s) = BLDC_HALL ->
  In (motor_hallToSector (BLDC_motor s)) hallToSector ->
  1 <= hall_code env (S (reads (world s))) <= 6 ->
  exists s' v,
    exec (BLDC_startMotor env) s = Some s'
    /\ index (motor_hallToSector (BLDC_motor s))
             (hall_code env (S (reads (world s)))) = Some v
    /\ 0 <= v <= 5
    /\ (cmd_direction (BLDC_command s) = BLDC_POS ->
        sector (BLDC_motor s') = (v + 1) mod 6)
    /\ (cmd_direction (BLDC_command s) = BLDC_NEG ->
        sector (BLDC_motor s') = (v + 5) mod 6).
Proof.
  intros Hwf Hst Hsen Hin Hc.
  destruct Hwf as (Hstates & Hse & Hph & Hpn).
  assert (Hne : BLDC_HALL <> BLDC_SENSORLESS).
  { apply NoDup_cons_iff in Hse as (H1 & _). cbn [In] in H1.
    intros E. apply H1. rewrite E. tauto. }
  destruct (row_lookup_valid _ _ Hin Hc) as (v & Hv & Hr).
  rewrite (startMotor_stopped env s Hst).
  rewrite (determineSector_hall env (start_entry env s) v);
    [| cbn; congruence | exact Hsen | exact Hv].
  rewrite s8_small by lia.
  match goal with
  | |- context [exec (BLDC_commutate env) ?x] =>
      destruct (commutate_defined env x) as (d & h & l & Hex & _);
        [cbn; lia|]
  end.
  cbn zeta in Hex. rewrite Hex. eexists. exists v.
  split; [reflexivity|]. split; [exact Hv|]. split; [exact Hr|].
  rewrite commutate_post_sector.
  cbn [start_entry tick with_motor BLDC_motor set_direction set_dutyCycle
       set_startTimeAbs set_state set_sector direction sector].
  split; intros Hd; rewrite Hd.
  - apply advance_pos. exact Hr.
  - apply advance_neg; [congruence | exact Hr].
Qed.

(** X18: The two setters only fill the pending command, the direction
    converted to [bool] (any non-zero argument is stored as 1) and the
    duty cycle truncated to 16 bits.  The pending direction reaches the
    motor at the next start from [BLDC_STOPPED]; the commanded duty cycle
    does not: the motor starts at [BLDC_MIN_DUTY_CYCLE] and the commanded
    value stays pending. *)
Theorem command_then_start (s : Sys) (dir duty : Z) :
  header_wf hdr -> table_ok s ->
  state (BLDC_motor s) = BLDC_STOPPED ->
  exists s',
    exec (BLDC_commandDirection dir ;; BLDC_commandDutyCycle duty ;;
          BLDC_startMotor env) s = Some s'
    /\ state (BLDC_motor s') = BLDC_STARTING
    /\ direction (BLDC_motor s') = c_bool dir
    /\ (dir = 0 \/ dir = 1 -> direction (BLDC_motor s') = dir)
    /\ (dir <> 0 -> direction (BLDC_motor s') = 1)
    /\ dutyCycle (BLDC_motor s') = u16 BLDC_MIN_DUTY_CYCLE
    /\ BLDC_command s' = mk_command (c_bool dir) (u16 duty).
Proof.
  intros Hwf Ht Hst.
  assert (E0 : exec (BLDC_commandDirection dir ;; BLDC_commandDutyCycle duty ;;
                     BLDC_startMotor env) s
               = exec (BLDC_startMotor env)
                   (mk_sys (BLDC_motor s) (mk_command (c_bool dir) (u16 duty))
                           (hallTableUtilized s) (world s))) by reflexivity.
  rewrite E0.
  match goal with
  | |- context [exec (BLDC_startMotor env) ?x] =>
      destruct (startMotor_run x Hwf Ht Hst)
        as (s1 & d & h & l & _ & E & _ & Hm1 & Hc1 & _)
  end.
  rewrite E. eexists. split; [reflexivity|].
  destruct (commutate_post_frame env s1 d h l) as (_ & F2 & _ & _ & F5).
  rewrite commutate_post_state, commutate_post_direction, F2, F5, Hc1, Hm1.
  cbn [start_entry tick with_motor BLDC_motor BLDC_command set_direction
       set_dutyCycle set_startTimeAbs set_state set_sector direction state
       dutyCycle cmd_direction].
  split; [reflexivity|]. split; [reflexivity|].
  split; [intros [E0'|E1]; [rewrite E0' | rewrite E1]; reflexivity|].
  split; [|split; reflexivity].
  intros Hn. unfold c_bool. apply Z.eqb_neq in Hn. rewrite Hn. reflexivity.
Qed.


Lemma run_op_track (o : op) (s : Sys) :
  header_wf hdr -> motor_inv s ->
  exists s',
    exec (run_op env o) s = Some s'
    /\ motor_inv s'
    /\ (dutyCycle (BLDC_motor s') = dutyCycle (BLDC_motor s)
        \/ dutyCycle (BLDC_motor s') = u16 BLDC_MIN_DUTY_CYCLE)
    /\ (state (BLDC_motor s') = state (BLDC_motor s)
        \/ state (BLDC_motor s') = BLDC_STOPPED
        \/ state (BLDC_motor s') = BLDC_STARTING).
Proof.
  intros Hwf Hinv.
  destruct (states_distinct Hwf) as (_ & _ & _ & Hsg & _).
  destruct o; cbn [run_op].
  - destruct (Z.eq_dec (state (BLDC_motor s)) BLDC_STOPPED) as [Hst|Hst].
    + destruct Hinv as (Hs & Ht & _).
      destruct (startMotor_run s Hwf Ht Hst)
        as (s1 & d & h & l & _ & E & Hr1 & Hm1 & _ & Hf).
      eexists. split; [exact E|].
      destruct (commutate_post_frame env s1 d h l) as (_ & F2 & _).
      rewrite commutate_post_state, F2, Hm1. split.
      * split.
        { unfold sector_in_range. rewrite commutate_post_sector.
          apply advance_range. lia. }
        split.
        { unfold table_ok. rewrite commutate_post_table, Hm1. exact Ht. }
        intros _. rewrite commutate_post_ptr. exact Hf.
      * split; [right; reflexivity | right; right; reflexivity].
    + exists s. split; [apply startMotor_not_stopped, Hst|]. auto.
  - eexists. split; [apply BLDC_stopMotor_exec|]. split.
    + apply (motor_inv_same s); [reflexivity | reflexivity | | exact Hinv].
      cbn. intros E; congruence.
    + split; [left; reflexivity | right; left; reflexivity].
  - eexists. split; [reflexivity|]. split; [exact Hinv | auto].
  - eexists. split; [reflexivity|]. split; [exact Hinv | auto].
  - eexists. split; [reflexivity|]. split; [exact Hinv | auto].
  - destruct (adcInterrupt_settings s Hwf Hinv)
      as (s' & E & Hinv' & (Hd & _) & _ & Hst).
    exists s'. split; [exact E|]. split; [exact Hinv'|].
    split; [left; exact Hd|].
    destruct Hst as [Hst | (_ & Hst)]; auto.
Qed.

Lemma run_ops_track (ops : list op) :
  header_wf hdr ->
  forall s, motor_inv s ->
  exists s',
    exec (run_ops env ops) s = Some s'
    /\ motor_inv s'
    /\ (dutyCycle (BLDC_motor s') = dutyCycle (BLDC_motor s)
        \/ dutyCycle (BLDC_motor s') = u16 BLDC_MIN_DUTY_CYCLE)
    /\ (state (BLDC_motor s') = state (BLDC_motor s)
        \/ state (BLDC_motor s') = BLDC_STOPPED
        \/ state (BLDC_motor s') = BLDC_STARTING).
Proof.
  intros Hwf. induction ops as [|o ops IH]; intros s Hinv.
  - exists s. split; [reflexivity|]. auto.
  - destruct (run_op_track o s Hwf Hinv) as (s1 & E1 & H1 & Hd1 & Hs1).
    destruct (IH s1 H1) as (s' & E & H' & Hd & Hs).
    exists s'. cbn [run_ops]. rewrite exec_seq, E1.
    split; [exact E|]. split; [exact H'|]. split.
    + destruct Hd as [Hd|Hd]; [rewrite Hd; exact Hd1 | right; exact Hd].
    + destruct Hs as [Hs|Hs]; [rewrite Hs; exact Hs1 | right; exact Hs].
Qed.

(** X19: The commanded duty cycle never reaches the motor: whatever sequence
    of operations runs, the motor's duty cycle is either the one it had or
    the fixed [BLDC_MIN_DUTY_CYCLE] a start has set. *)
Theorem commanded_duty_never_applied (ops : list op) (s : Sys) :
  header_wf hdr -> motor_inv s ->
  exists s',
    exec (run_ops env ops) s = Some s'
    /\ (dutyCycle (BLDC_motor s') = dutyCycle (BLDC_motor s)
        \/ dutyCycle (BLDC_motor s') = u16 BLDC_MIN_DUTY_CYCLE).
Proof.
  intros Hwf Hinv.
  destruct (run_ops_track ops Hwf s Hinv) as (s' & E & _ & Hd & _).
  exists s'. auto.
Qed.

Lemma initMotor_boot_stopped :
  header_wf hdr ->
  exists s,
    exec (BLDC_initMotor env) boot = Some s
    /\ motor_inv s
    /\ state (BLDC_motor s) = BLDC_STOPPED.
Proof.
  intros Hwf.
  destruct (states_distinct Hwf) as (_ & _ & _ & Hsg & _).
  unfold BLDC_initMotor, BLDC_initPositionSensors, BLDC_stopMotor,
    BLDC_commandDirection, MPWM_initMotorPwm, MPWM_setMotorPwmFreq,
    GPIO_pinSetup_hall, ADC_initAdc1Interrupt, read_hallValue, boot.
  cbv [exec bind ret undefined motor modify_motor modify_command
       modify_world next_read MPWM_setPhaseDutyCycle GPIO_readInput
       BLDC_motor BLDC_command hallTableUtilized world
       reads pwm_calls pwm_freq hall_pins_input adc1_handler
       cmd_direction cmd_dutyCycle].
  destruct (GPIO_value env 0 0), (GPIO_value env 1 1), (GPIO_value env 2 2);
    (eexists; split; [vm_compute; reflexivity|]);
    (split; [|reflexivity]);
    (split; [unfold sector_in_range; cbn [BLDC_motor sector]; lia|]);
    (split; [split; [reflexivity
                    | cbn [BLDC_motor motor_hallToSector];
                      repeat constructor; lia]|]);
    intros E; exfalso; apply Hsg; exact E.
Qed.

(** X20: No run of the program ever enters [BLDC_RUNNING] or [BLDC_LOCKED]:
    after [BLDC_initMotor] on the booted globals and any sequence of
    operations the state is [BLDC_STOPPED] or [BLDC_STARTING]. *)
Theorem reachable_states (ops : list op) :
  header_wf hdr ->
  exists s,
    exec (BLDC_initMotor env ;; run_ops env ops) boot = Some s
    /\ (state (BLDC_motor s) = BLDC_STOPPED
        \/ state (BLDC_motor s) = BLDC_STARTING)
    /\ state (BLDC_motor s) <> BLDC_RUNNING
    /\ state (BLDC_motor s) <> BLDC_LOCKED.
Proof.
  intros Hwf.
  destruct (states_distinct Hwf) as (H1 & H2 & H3 & H4 & H5 & H6).
  destruct (initMotor_boot_stopped Hwf) as (s0 & E0 & Hinv & Hst0).
  destruct (run_ops_track ops Hwf s0 Hinv) as (s & E & _ & _ & Hst).
  exists s. rewrite exec_seq, E0. split; [exact E|].
  rewrite Hst0 in Hst.
  assert (Hs : state (BLDC_motor s) = BLDC_STOPPED
               \/ state (BLDC_motor s) = BLDC_STARTING) by tauto.
  split; [exact Hs|]. destruct Hs as [Hs|Hs]; rewrite Hs; split; congruence.
Qed.

Lemma repeat_adcInterrupt_stopped (n : nat) :
  header_wf hdr ->
  forall s, state (BLDC_motor s) = BLDC_STOPPED ->
  exists s',
    exec (repeat_adcInterrupt env n) s = Some s'
    /\ state (BLDC_motor s') = BLDC_STOPPED
    /\ pwm_calls (world s') = pwm_calls (world s)
    /\ sector (BLDC_motor s') = sector (BLDC_motor s)
    /\ reads (world s') = (4 * n + reads (world s))%nat.
Proof.
  intros Hwf.
  destruct (states_distinct Hwf) as (H1 & _ & _ & H4 & _).
  induction n as [|n IH]; intros s Hst.
  - exists s. repeat split; assumption.
  - destruct (IH (sampled env s) Hst) as (s' & E & Hs' & Hc & Hsec & Hr).
    exists s'. cbn [repeat_adcInterrupt].
    rewrite exec_seq, adcInterrupt_idle by congruence.
    split; [exact E|]. split; [exact Hs'|]. split; [exact Hc|].
    split; [exact Hsec|]. rewrite Hr. cbn [sampled tick world reads next_read
      with_motor]. lia.
Qed.

(** X21: After [BLDC_stopMotor] any number of sampling events leaves the motor
    stopped and the three phases dormant at duty 0: no event programs a
    phase or moves the sector; each only reads its four conversions. *)
Theorem stop_then_sampling (n : nat) (s : Sys) :
  header_wf hdr ->
  exists s1 s',
    exec BLDC_stopMotor s = Some s1
    /\ exec (repeat_adcInterrupt env n) s1 = Some s'
    /\ state (BLDC_motor s') = BLDC_STOPPED
    /\ calls_since s1 s' = []
    /\ sector (BLDC_motor s') = sector (BLDC_motor s)
    /\ reads (world s') = (4 * n + reads (world s))%nat
    /\ (forall ph, In ph [MPWM_PH_A; MPWM_PH_B; MPWM_PH_C] ->
          phase_output (pwm_calls (world s')) ph = Some (MPWM_DORMANT, 0)).
Proof.
  intros Hwf.
  destruct (repeat_adcInterrupt_stopped n Hwf
              (with_motor (set_state BLDC_STOPPED) (add_calls stop_calls s)))
    as (s' & E & Hst & Hc & Hsec & Hr); [reflexivity|].
  do 2 eexists. split; [apply BLDC_stopMotor_exec|].
  split; [exact E|]. split; [exact Hst|].
  split; [unfold calls_since; rewrite Hc; apply skipn_all|].
  split; [exact Hsec|]. split; [exact Hr|].
  intros ph Hin. rewrite Hc. apply phase_output_stop. exact Hin.
Qed.

End Coverage.

(** * Concrete runs of the theorems *)

#[local] Existing Instance sample_header.

Lemma sample_header_wf : header_wf sample_header.
Proof.
  unfold header_wf; cbn.
  repeat split; repeat constructor; cbn; intuition discriminate.
Defined.

Lemma hall_ready_table_ok : table_ok hall_ready.
Proof.
  split; [reflexivity|]. cbn. repeat constructor; discriminate.
Defined.

Example sectors_visited_positive :
  sectors_visited BLDC_POS 8 = map Some [0; 1; 2; 3; 4; 5; 0; 1].
Proof. vm_compute. reflexivity. Qed.

Example sectors_visited_negative :
  sectors_visited BLDC_NEG 8 = map Some [0; 5; 4; 3; 2; 1; 0; 5].
Proof. vm_compute. reflexivity. Qed.

(** C5 at a concrete input: sector 0, direction [BLDC_POS], seven commutations. *)
Lemma commutate_sector_sequence_witness :
  (header_wf sample_header)
  /\ (0 <= sector (BLDC_motor starting_at_0) <= 5)
  /\ ((exists s1,
     exec (BLDC_commutate steady_env) starting_at_0 = Some s1
     /\ (direction (BLDC_motor starting_at_0) = BLDC_POS ->
         sector (BLDC_motor s1) = (sector (BLDC_motor starting_at_0) + 1) mod 6)
     /\ (direction (BLDC_motor starting_at_0) = BLDC_NEG ->
         sector (BLDC_motor s1) = (sector (BLDC_motor starting_at_0) + 5) mod 6))
  /\ (sector (BLDC_motor starting_at_0) = 0 ->
      exists sn,
        exec (repeat_commutate steady_env 7%nat) starting_at_0 = Some sn
        /\ (direction (BLDC_motor starting_at_0) = BLDC_POS ->
            sector (BLDC_motor sn) = Z.of_nat 7%nat mod 6)
        /\ (direction (BLDC_motor starting_at_0) = BLDC_NEG ->
            sector (BLDC_motor sn) = (- Z.of_nat 7%nat) mod 6)
        /\ exists sn6,
             exec (repeat_commutate steady_env (7%nat + 6)) starting_at_0 = Some sn6
             /\ sector (BLDC_motor sn6) = sector (BLDC_motor sn))).
Proof.
  split; [exact sample_header_wf|].
  split; [cbn; lia|].
  apply (@commutate_sector_sequence sample_header steady_env starting_at_0 7%nat);
    [exact sample_header_wf | cbn; lia].
Defined.

(** C6 at a concrete input: a commutation from sector 0. *)
Lemma commutate_phase_roles_witness :
  (header_wf sample_header)
  /\ (0 <= sector (BLDC_motor starting_at_0) <= 5)
  /\ (exists s' h l d,
    exec (BLDC_commutate steady_env) starting_at_0 = Some s'
    /\ 0 <= sector (BLDC_motor s') <= 5
    /\ spec_phase_roles (sector (BLDC_motor s')) = Some (h, l, d)
    /\ calls_since starting_at_0 s'
       = [ mk_pwm d MPWM_DORMANT (dutyCycle (BLDC_motor starting_at_0));
           mk_pwm h MPWM_HI_STATE (highSideDuty (dutyCycle (BLDC_motor starting_at_0)));
           mk_pwm l MPWM_HI_STATE (lowSideDuty (dutyCycle (BLDC_motor starting_at_0))) ]
    /\ dormantPhasePtr (BLDC_motor s') = dormant_field d
    /\ Permutation [h; l; d] [MPWM_PH_A; MPWM_PH_B; MPWM_PH_C]
    /\ NoDup [h; l; d]).
Proof.
  split; [exact sample_header_wf|].
  split; [cbn; lia|].
  apply (@commutate_phase_roles sample_header steady_env starting_at_0);
    [exact sample_header_wf | cbn; lia].
Defined.

(** C7 at a concrete input: duty cycle 3277. *)
Lemma commutate_duty_sum_witness :
  (0 <= sector (BLDC_motor starting_at_0) <= 5)
  /\ (0 <= dutyCycle (BLDC_motor starting_at_0) <= 65535)
  /\ (exists s' d h l hi lo,
    exec (BLDC_commutate steady_env) starting_at_0 = Some s'
    /\ calls_since starting_at_0 s'
       = [ mk_pwm d MPWM_DORMANT (dutyCycle (BLDC_motor starting_at_0));
           mk_pwm h MPWM_HI_STATE hi;
           mk_pwm l MPWM_HI_STATE lo ]
    /\ hi = 32767 + Z.shiftr (dutyCycle (BLDC_motor starting_at_0)) 1
    /\ lo = 32767 - Z.shiftr (dutyCycle (BLDC_motor starting_at_0)) 1
    /\ 0 <= hi <= 65535
    /\ 0 <= lo <= 65535
    /\ hi + lo = 65534
    /\ u16 (hi + lo) = 65534).
Proof.
  split; [cbn; lia|].
  split; [cbn; lia|].
  apply (@commutate_duty_sum sample_header steady_env starting_at_0);
    [cbn; lia | cbn; lia].
Defined.

(** C10 at a concrete input: the sentinel sector 6 under [BLDC_POS]. *)
Lemma commutate_total_with_sentinel_witness :
  (0 <= sector (BLDC_motor starting_at_6) <= 6)
  /\ (exists s' d h l,
    exec (BLDC_commutate steady_env) starting_at_6 = Some s'
    /\ 0 <= sector (BLDC_motor s') <= 5
    /\ index dormantPhaseTable (sector (BLDC_motor s')) = Some d
    /\ index hiPhaseTable (sector (BLDC_motor s')) = Some h
    /\ index loPhaseTable (sector (BLDC_motor s')) = Some l
    /\ (forall i v, index dormantPhaseTable i = Some v -> 0 <= i <= 5)
    /\ dormantPhasePtr (BLDC_motor s') <> None
    /\ (sector (BLDC_motor starting_at_6) = 6 ->
        direction (BLDC_motor starting_at_6) = BLDC_POS -> sector (BLDC_motor s') = 0)
    /\ (sector (BLDC_motor starting_at_6) = 6 ->
        direction (BLDC_motor starting_at_6) <> BLDC_POS -> sector (BLDC_motor s') = 5)).
Proof.
  split; [cbn; lia|].
  apply (@commutate_total_with_sentinel sample_header steady_env starting_at_6);
    [cbn; lia].
Defined.

(** C9 at a concrete input: locked until 2000 ms, sampled at 2000 ms. *)
Lemma adcInterrupt_locked_expiry_witness :
  (header_wf sample_header)
  /\ (state (BLDC_motor locked_until_2000) = BLDC_LOCKED)
  /\ (let now := u32 (MSTMR_value steady_env (4 + reads (world locked_until_2000))) in
  exists s',
    exec (BLDC_adcInterrupt steady_env) locked_until_2000 = Some s'
    /\ (state (BLDC_motor s') = BLDC_STOPPED <->
        now > lockUntilTimeAbs (BLDC_motor locked_until_2000))
    /\ (state (BLDC_motor s') = BLDC_LOCKED <->
        now <= lockUntilTimeAbs (BLDC_motor locked_until_2000))
    /\ BLDC_motor s'
       = set_state (state (BLDC_motor s'))
           (set_phases (phaseA (BLDC_motor s')) (phaseB (BLDC_motor s'))
                       (phaseC (BLDC_motor s')) (BLDC_motor locked_until_2000))
    /\ BLDC_command s' = BLDC_command locked_until_2000
    /\ calls_since locked_until_2000 s' = []).
Proof.
  split; [exact sample_header_wf|].
  split; [reflexivity|].
  apply (@adcInterrupt_locked_expiry sample_header steady_env locked_until_2000);
    [exact sample_header_wf | reflexivity].
Defined.

(** C4 at a concrete input: the stopped motor right after [BLDC_initMotor], Hall sensor, the Hall lines all low. *)
Lemma startMotor_spec_witness :
  (header_wf sample_header)
  /\ (table_ok hall_ready)
  /\ (state (BLDC_motor hall_ready) = BLDC_STOPPED)
  /\ (sensor (BLDC_motor hall_ready) = BLDC_HALL)
  /\ ((state (BLDC_motor hall_ready) = BLDC_STOPPED ->
   exists s0 s1 s' d h l,
     sector (BLDC_motor s0) = 0
     /\ state (BLDC_motor s0) = BLDC_STARTING
     /\ startTimeAbs (BLDC_motor s0) = u32 (MSTMR_value drop_env (reads (world hall_ready)))
     /\ dutyCycle (BLDC_motor s0) = u16 BLDC_MIN_DUTY_CYCLE
     /\ direction (BLDC_motor s0) = cmd_direction (BLDC_command hall_ready)
     /\ BLDC_motor s0
        = set_direction (cmd_direction (BLDC_command hall_ready))
            (set_dutyCycle (u16 BLDC_MIN_DUTY_CYCLE)
               (set_startTimeAbs (u32 (MSTMR_value drop_env (reads (world hall_ready))))
                  (set_state BLDC_STARTING (set_sector 0 (BLDC_motor hall_ready)))))
     /\ BLDC_command s0 = BLDC_command hall_ready
     /\ hallTableUtilized s0 = hallTableUtilized hall_ready
     /\ world s0 = next_read (world hall_ready)
     /\ exec (BLDC_determineSector drop_env) s0 = Some s1
     /\ (sensor (BLDC_motor hall_ready) = BLDC_HALL ->
         exists v,
           index (motor_hallToSector (BLDC_motor hall_ready))
                 (hall_code drop_env (S (reads (world hall_ready)))) = Some v
           /\ sector (BLDC_motor s1) = v
           /\ reads (world s1) = (4 + reads (world hall_ready))%nat)
     /\ (sensor (BLDC_motor hall_ready) <> BLDC_HALL -> s1 = s0)
     /\ BLDC_motor s1 = set_sector (sector (BLDC_motor s1)) (BLDC_motor s0)
     /\ BLDC_command s1 = BLDC_command hall_ready
     /\ pwm_calls (world s1) = pwm_calls (world hall_ready)
     /\ exec (BLDC_commutate drop_env) s1 = Some s'
     /\ exec (BLDC_startMotor drop_env) hall_ready = Some s'
     /\ state (BLDC_motor s') = BLDC_STARTING
     /\ startTimeAbs (BLDC_motor s') = u32 (MSTMR_value drop_env (reads (world hall_ready)))
     /\ dutyCycle (BLDC_motor s') = u16 BLDC_MIN_DUTY_CYCLE
     /\ direction (BLDC_motor s') = cmd_direction (BLDC_command hall_ready)
     /\ sector (BLDC_motor s')
        = advance (cmd_direction (BLDC_command hall_ready)) (sector (BLDC_motor s1))
     /\ 0 <= sector (BLDC_motor s') <= 5
     /\ spec_phase_roles (sector (BLDC_motor s')) = Some (h, l, d)
     /\ dormantPhasePtr (BLDC_motor s') = dormant_field d
     /\ startCommutationTimeAbs (BLDC_motor s')
        = u32 (MSTMR_value drop_env (reads (world s1)))
     /\ calls_since hall_ready s' = commutation_calls (u16 BLDC_MIN_DUTY_CYCLE) d h l
     /\ BLDC_command s' = BLDC_command hall_ready)
  /\ (state (BLDC_motor hall_ready) <> BLDC_STOPPED ->
      exec (BLDC_startMotor drop_env) hall_ready = Some hall_ready)).
Proof.
  split; [exact sample_header_wf|].
  split; [exact hall_ready_table_ok|].
  split; [reflexivity|].
  split; [reflexivity|].
  apply (@startMotor_spec sample_header drop_env hall_ready);
    [exact sample_header_wf | exact hall_ready_table_ok].
Defined.

(** C1 (amended) at a concrete run: start, one sampling event, stop. *)
Lemma sector_range_invariant_witness :
  (header_wf sample_header)
  /\ ((exists s,
     exec (BLDC_initMotor drop_env ;; run_ops drop_env [OpStartMotor; OpAdcInterrupt; OpStopMotor]) boot = Some s
     /\ sector_in_range s)
  /\ preserves_sector_range (BLDC_startMotor drop_env)
  /\ preserves_sector_range (BLDC_commutate drop_env)
  /\ preserves_sector_range (BLDC_adcInterrupt drop_env)
  /\ (forall s s',
        table_ok s -> sector_in_range s ->
        exec (BLDC_determineSector drop_env) s = Some s' ->
        0 <= sector (BLDC_motor s') <= 6)
  /\ advance BLDC_POS 5 = 0
  /\ advance BLDC_NEG 0 = 5).
Proof.
  split; [exact sample_header_wf|].
  apply (@sector_range_invariant sample_header drop_env [OpStartMotor; OpAdcInterrupt; OpStopMotor]);
    [exact sample_header_wf].
Defined.

(** C2 (amended) at a concrete input: row 0 loaded, the Hall lines all low. *)
Lemma determineSector_hall_lookup_witness :
  (header_wf sample_header)
  /\ (sensor (BLDC_motor hall_ready) = BLDC_HALL)
  /\ (In (motor_hallToSector (BLDC_motor hall_ready)) hallToSector)
  /\ (exists s' v,
    exec (BLDC_determineSector drop_env) hall_ready = Some s'
    /\ index (motor_hallToSector (BLDC_motor hall_ready))
             (hall_code drop_env (reads (world hall_ready))) = Some v
    /\ BLDC_motor s' = set_sector v (BLDC_motor hall_ready)
    /\ state (BLDC_motor s') = state (BLDC_motor hall_ready)
    /\ BLDC_command s' = BLDC_command hall_ready
    /\ calls_since hall_ready s' = []
    /\ (1 <= hall_code drop_env (reads (world hall_ready)) <= 6 -> 0 <= v <= 5)
    /\ (v = 6 <-> hall_code drop_env (reads (world hall_ready)) = 0
                  \/ hall_code drop_env (reads (world hall_ready)) = 7)).
Proof.
  split; [exact sample_header_wf|].
  split; [reflexivity|].
  split; [left; reflexivity|].
  apply (@determineSector_hall_lookup sample_header drop_env hall_ready);
    [exact sample_header_wf | reflexivity | left; reflexivity].
Defined.

(** C1, counterexample: right after [BLDC_initMotor] has detected the Hall
    sensor the sector is 0; with the three Hall lines low,
    [BLDC_determineSector] replaces it by the sentinel 6, outside [0,5]. *)
Lemma determineSector_leaves_range :
  exec (BLDC_initMotor drop_env) boot = Some hall_ready
  /\ table_ok hall_ready
  /\ sector_in_range hall_ready
  /\ (exists s',
        exec (BLDC_determineSector drop_env) hall_ready = Some s'
        /\ sector (BLDC_motor s') = 6
        /\ ~ sector_in_range s')
  /\ ~ preserves_sector_range (BLDC_determineSector drop_env).
Proof.
  assert (Hrun : exists s',
            exec (BLDC_determineSector drop_env) hall_ready = Some s'
            /\ sector (BLDC_motor s') = 6
            /\ ~ sector_in_range s').
  { eexists. split; [vm_compute; reflexivity|].
    split; [reflexivity|]. unfold sector_in_range; cbn. lia. }
  split; [vm_compute; reflexivity|].
  split; [exact hall_ready_table_ok|].
  assert (Hin : sector_in_range hall_ready)
    by (unfold sector_in_range; cbn; lia).
  split; [exact Hin|]. split; [exact Hrun|].
  intros Hp. destruct Hrun as (s' & E & _ & Hout).
  exact (Hout (Hp hall_ready s' hall_ready_table_ok Hin E)).
Qed.

(** C2, counterexample: sensor kind Hall, Hall code 0.
    [BLDC_determineSector] returns normally with the sentinel 6 as sector
    and the state untouched; [BLDC_startMotor] on the same input carries
    on into [BLDC_STARTING].  The state never becomes [BLDC_LOCKED]. *)
Lemma hall_code_zero_not_a_fault :
  sensor (BLDC_motor hall_ready) = BLDC_HALL
  /\ hall_code drop_env (reads (world hall_ready)) = 0
  /\ (exists s',
        exec (BLDC_determineSector drop_env) hall_ready = Some s'
        /\ sector (BLDC_motor s') = 6
        /\ state (BLDC_motor s') = state (BLDC_motor hall_ready)
        /\ state (BLDC_motor s') <> BLDC_LOCKED)
  /\ (exists s'',
        exec (BLDC_startMotor drop_env) hall_ready = Some s''
        /\ state (BLDC_motor s'') = BLDC_STARTING
        /\ state (BLDC_motor s'') <> BLDC_LOCKED
        /\ sector (BLDC_motor s'') = 0).
Proof.
  split; [reflexivity|]. split; [reflexivity|]. split.
  - eexists. split; [vm_compute; reflexivity|].
    repeat split; discriminate.
  - eexists. split; [vm_compute; reflexivity|].
    repeat split; discriminate.
Qed.

(** C3, the code at two failing inputs, both from the 32-bit wrap of
    [startCommutationTimeAbs + 25].
    Shortly before the counter wraps, with the clock standing still during
    the event: the zero-crossing test commutates and stamps the time, the
    stall test then finds [stamp + 25] wrapped below the clock and
    commutates again: two commutations in one event, sector 0 to 2.
    Shortly after the wrap, 35 ms after the last commutation and without a
    zero crossing: the stall test fails and no commutation is issued. *)
Theorem adcInterrupt_stall_timer_wraps :
  (exists s',
     exec (BLDC_adcInterrupt wrap_env) before_wrap = Some s'
     /\ state (BLDC_motor before_wrap) = BLDC_STARTING
     /\ sector (BLDC_motor before_wrap) = 0
     /\ sector (BLDC_motor s') = 2
     /\ length (calls_since before_wrap s') = 6%nat)
  /\ (exists s',
        exec (BLDC_adcInterrupt wrapped_env) after_wrap = Some s'
        /\ state (BLDC_motor after_wrap) = BLDC_STARTING
        /\ 4294967296 + u32 (MSTMR_value wrapped_env 14)
           - startCommutationTimeAbs (BLDC_motor after_wrap) = 35
        /\ sector (BLDC_motor s') = sector (BLDC_motor after_wrap)
        /\ calls_since after_wrap s' = []).
Proof.
  split; (eexists; split; [vm_compute; reflexivity|]); repeat split.
Qed.

(** * Concrete runs of the further theorems *)

Lemma starting_at_0_inv : motor_inv starting_at_0.
Proof.
  split; [unfold sector_in_range; cbn; lia|].
  split; [split; [reflexivity | cbn; repeat constructor; discriminate]|].
  intros _. discriminate.
Defined.

Lemma hall_ready_inv : motor_inv hall_ready.
Proof.
  split; [unfold sector_in_range; cbn; lia|].
  split; [exact hall_ready_table_ok|].
  intros E. discriminate E.
Defined.

(** X1: row 0 *)
Lemma hallToSector_row_bijection_witness :
  (In row0 hallToSector)
  /\ (length row0 = 8%nat
  /\ index row0 0 = Some 6
  /\ index row0 7 = Some 6
  /\ (forall c, 1 <= c <= 6 -> exists t, index row0 c = Some t /\ 0 <= t <= 5)
  /\ (forall t, 0 <= t <= 5 -> exists c, 1 <= c <= 6 /\ index row0 c = Some t)
  /\ (forall c1 c2 t, 1 <= c1 <= 6 -> 1 <= c2 <= 6 ->
        index row0 c1 = Some t -> index row0 c2 = Some t -> c1 = c2)).
Proof.
  split; [left; reflexivity|].
  apply (@hallToSector_row_bijection row0);
    [left; reflexivity].
Defined.

(** X2: row 2 and row 8 at code 3 *)
Lemma hallToSector_rows_shift_witness :
  (0 <= 2 <= 5)
  /\ (1 <= 3 <= 6)
  /\ (exists v0,
    index2 hallToSector 0 3 = Some v0
    /\ index2 hallToSector 2 3 = Some ((v0 - 2) mod 6)
    /\ index2 hallToSector (6 + 2) 3 = Some ((5 - v0 - 2) mod 6)).
Proof.
  split; [lia|].
  split; [lia|].
  apply (@hallToSector_rows_shift 2 3);
    [lia | lia].
Defined.

(** X3: row 0 from sector 0 (code 5) to sector 1 (code 1) *)
Lemma hallToSector_one_line_per_step_witness :
  (In row0 hallToSector)
  /\ (1 <= 5 <= 6)
  /\ (1 <= 1 <= 6)
  /\ (index row0 5 = Some 0)
  /\ (index row0 1 = Some ((0 + 1) mod 6))
  /\ (one_line_apart 5 1 = true).
Proof.
  split; [left; reflexivity|].
  split; [lia|].
  split; [lia|].
  split; [reflexivity|].
  split; [reflexivity|].
  apply (@hallToSector_one_line_per_step row0 5 1 0);
    [left; reflexivity | lia | lia | reflexivity | reflexivity].
Defined.

(** X4: the booted globals, Hall code 2 *)
Lemma initPositionSensors_spec_witness :
  (length (motor_hallToSector (BLDC_motor boot)) = 8%nat)
  /\ (0 <= hallTableUtilized boot < 12)
  /\ (exists s',
    exec (BLDC_initPositionSensors steady_env) boot = Some s'
    /\ (1 <= hall_code steady_env (reads (world boot)) <= 6 ->
        sensor (BLDC_motor s') = BLDC_HALL
        /\ nth_error hallToSector (Z.to_nat (hallTableUtilized boot))
           = Some (motor_hallToSector (BLDC_motor s'))
        /\ BLDC_motor s'
           = set_hallToSector (motor_hallToSector (BLDC_motor s'))
               (set_sensor BLDC_HALL (BLDC_motor boot)))
    /\ (hall_code steady_env (reads (world boot)) = 0
        \/ hall_code steady_env (reads (world boot)) = 7 ->
        BLDC_motor s' = BLDC_motor boot)
    /\ BLDC_command s' = BLDC_command boot
    /\ hallTableUtilized s' = hallTableUtilized boot
    /\ calls_since boot s' = []
    /\ reads (world s') = (3 + reads (world boot))%nat
    /\ hall_pins_input (world s') = true).
Proof.
  split; [reflexivity|].
  split; [cbn; lia|].
  apply (@initPositionSensors_spec sample_header steady_env boot);
    [reflexivity | cbn; lia].
Defined.

(** X5: table index 12, Hall code 2 *)
Lemma initPositionSensors_bad_table_index_witness :
  (hallTableUtilized boot_bad_index < 0 \/ 12 <= hallTableUtilized boot_bad_index)
  /\ (1 <= hall_code steady_env (reads (world boot_bad_index)) <= 6)
  /\ (exec (BLDC_initPositionSensors steady_env) boot_bad_index = None).
Proof.
  split; [right; vm_compute; discriminate|].
  split; [vm_compute; split; discriminate|].
  apply (@initPositionSensors_bad_table_index sample_header steady_env boot_bad_index);
    [right; vm_compute; discriminate | vm_compute; split; discriminate].
Defined.

(** X6: the booted globals *)
Lemma initMotor_spec_witness :
  (length (motor_hallToSector (BLDC_motor boot)) = 8%nat)
  /\ (0 <= hallTableUtilized boot < 12)
  /\ (exists s',
    exec (BLDC_initMotor drop_env) boot = Some s'
    /\ state (BLDC_motor s') = BLDC_STOPPED
    /\ cmd_direction (BLDC_command s') = c_bool BLDC_POS
    /\ (BLDC_POS = 0 \/ BLDC_POS = 1 ->
        cmd_direction (BLDC_command s') = BLDC_POS)
    /\ cmd_dutyCycle (BLDC_command s') = cmd_dutyCycle (BLDC_command boot)
    /\ calls_since boot s' = stop_calls
    /\ pwm_freq (world s') = Some 16000
    /\ adc1_handler (world s') = true
    /\ sector (BLDC_motor s') = sector (BLDC_motor boot)
    /\ dutyCycle (BLDC_motor s') = dutyCycle (BLDC_motor boot)
    /\ dormantPhasePtr (BLDC_motor s') = dormantPhasePtr (BLDC_motor boot)
    /\ (1 <= hall_code drop_env (reads (world boot)) <= 6 ->
        sensor (BLDC_motor s') = BLDC_HALL
        /\ nth_error hallToSector (Z.to_nat (hallTableUtilized boot))
           = Some (motor_hallToSector (BLDC_motor s')))
    /\ (hall_code drop_env (reads (world boot)) = 0
        \/ hall_code drop_env (reads (world boot)) = 7 ->
        sensor (BLDC_motor s') = sensor (BLDC_motor boot)
        /\ motor_hallToSector (BLDC_motor s')
           = motor_hallToSector (BLDC_motor boot))).
Proof.
  split; [reflexivity|].
  split; [cbn; lia|].
  apply (@initMotor_spec sample_header drop_env boot);
    [reflexivity | cbn; lia].
Defined.

(** X7: sector 0 in the starting state *)
Lemma commutate_time_stamp_witness :
  (0 <= sector (BLDC_motor starting_at_0) <= 6)
  /\ (exists s',
    exec (BLDC_commutate steady_env) starting_at_0 = Some s'
    /\ same_settings starting_at_0 s'
    /\ state (BLDC_motor s') = state (BLDC_motor starting_at_0)
    /\ phaseA (BLDC_motor s') = phaseA (BLDC_motor starting_at_0)
    /\ phaseB (BLDC_motor s') = phaseB (BLDC_motor starting_at_0)
    /\ phaseC (BLDC_motor s') = phaseC (BLDC_motor starting_at_0)
    /\ (state (BLDC_motor starting_at_0) = BLDC_STARTING ->
        startCommutationTimeAbs (BLDC_motor s')
        = u32 (MSTMR_value steady_env (reads (world starting_at_0)))
        /\ reads (world s') = S (reads (world starting_at_0)))
    /\ (state (BLDC_motor starting_at_0) <> BLDC_STARTING ->
        startCommutationTimeAbs (BLDC_motor s')
        = startCommutationTimeAbs (BLDC_motor starting_at_0)
        /\ reads (world s') = reads (world starting_at_0))).
Proof.
  split; [cbn; lia|].
  apply (@commutate_time_stamp sample_header steady_env starting_at_0);
    [cbn; lia].
Defined.

(** X8: sector 0, positive direction *)
Lemma commutate_reverse_witness :
  (header_wf sample_header)
  /\ (0 <= sector (BLDC_motor starting_at_0) <= 5)
  /\ ((direction (BLDC_motor starting_at_0) = BLDC_POS ->
   exists s1 s2,
     exec (BLDC_commutate steady_env) starting_at_0 = Some s1
     /\ exec (BLDC_commutate steady_env) (with_motor (set_direction BLDC_NEG) s1)
        = Some s2
     /\ sector (BLDC_motor s2) = sector (BLDC_motor starting_at_0))
  /\ (direction (BLDC_motor starting_at_0) = BLDC_NEG ->
      exists s1 s2,
        exec (BLDC_commutate steady_env) starting_at_0 = Some s1
        /\ exec (BLDC_commutate steady_env) (with_motor (set_direction BLDC_POS) s1)
           = Some s2
        /\ sector (BLDC_motor s2) = sector (BLDC_motor starting_at_0))).
Proof.
  split; [exact sample_header_wf|].
  split; [cbn; lia|].
  apply (@commutate_reverse sample_header steady_env starting_at_0);
    [exact sample_header_wf | cbn; lia].
Defined.

(** X9: duty cycle 3277 *)
Lemma commutate_duty_difference_witness :
  (0 <= sector (BLDC_motor starting_at_0) <= 5)
  /\ (0 <= dutyCycle (BLDC_motor starting_at_0) <= 65535)
  /\ (exists s' d h l hi lo,
    exec (BLDC_commutate steady_env) starting_at_0 = Some s'
    /\ calls_since starting_at_0 s'
       = [ mk_pwm d MPWM_DORMANT (dutyCycle (BLDC_motor starting_at_0));
           mk_pwm h MPWM_HI_STATE hi;
           mk_pwm l MPWM_HI_STATE lo ]
    /\ lo <= 32767 <= hi
    /\ hi - lo = dutyCycle (BLDC_motor starting_at_0) - dutyCycle (BLDC_motor starting_at_0) mod 2).
Proof.
  split; [cbn; lia|].
  split; [cbn; lia|].
  apply (@commutate_duty_difference sample_header steady_env starting_at_0);
    [cbn; lia | cbn; lia].
Defined.

(** X10: sector 0 *)
Lemma commutate_dormant_pointer_witness :
  (header_wf sample_header)
  /\ (0 <= sector (BLDC_motor starting_at_0) <= 5)
  /\ (exists s' d,
    exec (BLDC_commutate steady_env) starting_at_0 = Some s'
    /\ nth_error (calls_since starting_at_0 s') 0
       = Some (mk_pwm d MPWM_DORMANT (dutyCycle (BLDC_motor starting_at_0)))
    /\ dormantPhasePtr (BLDC_motor s')
       = Some (dormant_of_sector (sector (BLDC_motor s')))
    /\ (dormant_of_sector (sector (BLDC_motor s')) = FieldPhaseA ->
        d = MPWM_PH_A)
    /\ (dormant_of_sector (sector (BLDC_motor s')) = FieldPhaseB ->
        d = MPWM_PH_B)
    /\ (dormant_of_sector (sector (BLDC_motor s')) = FieldPhaseC ->
        d = MPWM_PH_C)).
Proof.
  split; [exact sample_header_wf|].
  split; [cbn; lia|].
  apply (@commutate_dormant_pointer sample_header steady_env starting_at_0);
    [exact sample_header_wf | cbn; lia].
Defined.

(** X12: one event in the starting state *)
Lemma adcInterrupt_frame_witness :
  (header_wf sample_header)
  /\ (motor_inv starting_at_0)
  /\ (exists s',
    exec (BLDC_adcInterrupt steady_env) starting_at_0 = Some s'
    /\ same_settings starting_at_0 s'
    /\ fresh_phases steady_env starting_at_0 s'
    /\ (state (BLDC_motor s') = state (BLDC_motor starting_at_0)
        \/ (state (BLDC_motor starting_at_0) = BLDC_LOCKED
            /\ state (BLDC_motor s') = BLDC_STOPPED))).
Proof.
  split; [exact sample_header_wf|].
  split; [exact starting_at_0_inv|].
  apply (@adcInterrupt_frame sample_header steady_env starting_at_0);
    [exact sample_header_wf | exact starting_at_0_inv].
Defined.

(** X13: the stopped motor *)
Lemma adcInterrupt_stopped_running_witness :
  (header_wf sample_header)
  /\ (state (BLDC_motor hall_ready) = BLDC_STOPPED \/ state (BLDC_motor hall_ready) = BLDC_RUNNING)
  /\ (exists s',
    exec (BLDC_adcInterrupt steady_env) hall_ready = Some s'
    /\ BLDC_motor s'
       = set_phases (u16 (ADC_value steady_env (reads (world hall_ready)) ADC_PH_A))
           (u16 (ADC_value steady_env (S (reads (world hall_ready))) ADC_PH_B))
           (u16 (ADC_value steady_env (S (S (reads (world hall_ready)))) ADC_PH_C))
           (BLDC_motor hall_ready)
    /\ BLDC_command s' = BLDC_command hall_ready
    /\ reads (world s') = (4 + reads (world hall_ready))%nat
    /\ calls_since hall_ready s' = []).
Proof.
  split; [exact sample_header_wf|].
  split; [left; reflexivity|].
  apply (@adcInterrupt_stopped_running sample_header steady_env hall_ready);
    [exact sample_header_wf | left; reflexivity].
Defined.

(** X14: the first start after initialisation *)
Lemma adcInterrupt_inside_first_start_witness :
  (header_wf sample_header)
  /\ (dormantPhasePtr (BLDC_motor hall_ready) = None)
  /\ (state (BLDC_motor (start_entry steady_env hall_ready)) = BLDC_STARTING
  /\ exec (BLDC_adcInterrupt steady_env) (start_entry steady_env hall_ready) = None).
Proof.
  split; [exact sample_header_wf|].
  split; [reflexivity|].
  apply (@adcInterrupt_inside_first_start sample_header steady_env hall_ready);
    [exact sample_header_wf | reflexivity].
Defined.

(** X15: the stopped motor *)
Lemma startMotor_twice_witness :
  (header_wf sample_header)
  /\ (table_ok hall_ready)
  /\ (exists s',
    exec (BLDC_startMotor steady_env) hall_ready = Some s'
    /\ exec (BLDC_startMotor steady_env ;; BLDC_startMotor steady_env) hall_ready = Some s').
Proof.
  split; [exact sample_header_wf|].
  split; [exact hall_ready_table_ok|].
  apply (@startMotor_twice sample_header steady_env hall_ready);
    [exact sample_header_wf | exact hall_ready_table_ok].
Defined.

(** X16: the booted globals: stopped, no Hall sensor *)
Lemma startMotor_sensorless_sector_witness :
  (header_wf sample_header)
  /\ (state (BLDC_motor boot) = BLDC_STOPPED)
  /\ (sensor (BLDC_motor boot) <> BLDC_HALL)
  /\ (exists s',
    exec (BLDC_startMotor steady_env) boot = Some s'
    /\ (cmd_direction (BLDC_command boot) = BLDC_POS ->
        sector (BLDC_motor s') = 1)
    /\ (cmd_direction (BLDC_command boot) <> BLDC_POS ->
        sector (BLDC_motor s') = 5)
    /\ reads (world s') = (2 + reads (world boot))%nat).
Proof.
  split; [exact sample_header_wf|].
  split; [reflexivity|].
  split; [cbn; discriminate|].
  apply (@startMotor_sensorless_sector sample_header steady_env boot);
    [exact sample_header_wf | reflexivity | cbn; discriminate].
Defined.

(** X17: row 0, Hall code 2 *)
Lemma startMotor_hall_sector_witness :
  (header_wf sample_header)
  /\ (state (BLDC_motor hall_ready) = BLDC_STOPPED)
  /\ (sensor (BLDC_motor hall_ready) = BLDC_HALL)
  /\ (In (motor_hallToSector (BLDC_motor hall_ready)) hallToSector)
  /\ (1 <= hall_code steady_env (S (reads (world hall_ready))) <= 6)
  /\ (exists s' v,
    exec (BLDC_startMotor steady_env) hall_ready = Some s'
    /\ index (motor_hallToSector (BLDC_motor hall_ready))
             (hall_code steady_env (S (reads (world hall_ready)))) = Some v
    /\ 0 <= v <= 5
    /\ (cmd_direction (BLDC_command hall_ready) = BLDC_POS ->
        sector (BLDC_motor s') = (v + 1) mod 6)
    /\ (cmd_direction (BLDC_command hall_ready) = BLDC_NEG ->
        sector (BLDC_motor s') = (v + 5) mod 6)).
Proof.
  split; [exact sample_header_wf|].
  split; [reflexivity|].
  split; [reflexivity|].
  split; [left; reflexivity|].
  split; [vm_compute; split; discriminate|].
  apply (@startMotor_hall_sector sample_header steady_env hall_ready);
    [exact sample_header_wf | reflexivity | reflexivity | left; reflexivity | vm_compute; split; discriminate].
Defined.

(** X18: direction argument 2 (stored as 1) and duty 5000 commanded *)
Lemma command_then_start_witness :
  (header_wf sample_header)
  /\ (table_ok hall_ready)
  /\ (state (BLDC_motor hall_ready) = BLDC_STOPPED)
  /\ (exists s',
    exec (BLDC_commandDirection 2 ;; BLDC_commandDutyCycle 5000 ;;
          BLDC_startMotor steady_env) hall_ready = Some s'
    /\ state (BLDC_motor s') = BLDC_STARTING
    /\ direction (BLDC_motor s') = c_bool 2
    /\ (2 = 0 \/ 2 = 1 -> direction (BLDC_motor s') = 2)
    /\ (2 <> 0 -> direction (BLDC_motor s') = 1)
    /\ dutyCycle (BLDC_motor s') = u16 BLDC_MIN_DUTY_CYCLE
    /\ BLDC_command s' = mk_command (c_bool 2) (u16 5000)).
Proof.
  split; [exact sample_header_wf|].
  split; [exact hall_ready_table_ok|].
  split; [reflexivity|].
  apply (@command_then_start sample_header steady_env hall_ready 2 5000);
    [exact sample_header_wf | exact hall_ready_table_ok | reflexivity].
Defined.

(** X19: command, start, one event *)
Lemma commanded_duty_never_applied_witness :
  (header_wf sample_header)
  /\ (motor_inv hall_ready)
  /\ (exists s',
    exec (run_ops steady_env [OpCommandDutyCycle 5000; OpStartMotor; OpAdcInterrupt]) hall_ready = Some s'
    /\ (dutyCycle (BLDC_motor s') = dutyCycle (BLDC_motor hall_ready)
        \/ dutyCycle (BLDC_motor s') = u16 BLDC_MIN_DUTY_CYCLE)).
Proof.
  split; [exact sample_header_wf|].
  split; [exact hall_ready_inv|].
  apply (@commanded_duty_never_applied sample_header steady_env [OpCommandDutyCycle 5000; OpStartMotor; OpAdcInterrupt] hall_ready);
    [exact sample_header_wf | exact hall_ready_inv].
Defined.

(** X20: start and two events *)
Lemma reachable_states_witness :
  (header_wf sample_header)
  /\ (exists s,
    exec (BLDC_initMotor steady_env ;; run_ops steady_env [OpStartMotor; OpAdcInterrupt; OpAdcInterrupt]) boot = Some s
    /\ (state (BLDC_motor s) = BLDC_STOPPED
        \/ state (BLDC_motor s) = BLDC_STARTING)
    /\ state (BLDC_motor s) <> BLDC_RUNNING
    /\ state (BLDC_motor s) <> BLDC_LOCKED).
Proof.
  split; [exact sample_header_wf|].
  apply (@reachable_states sample_header steady_env [OpStartMotor; OpAdcInterrupt; OpAdcInterrupt]);
    [exact sample_header_wf].
Defined.

(** X21: stop while starting, then three events *)
Lemma stop_then_sampling_witness :
  (header_wf sample_header)
  /\ (exists s1 s',
    exec BLDC_stopMotor starting_at_0 = Some s1
    /\ exec (repeat_adcInterrupt steady_env 3%nat) s1 = Some s'
    /\ state (BLDC_motor s') = BLDC_STOPPED
    /\ calls_since s1 s' = []
    /\ sector (BLDC_motor s') = sector (BLDC_motor starting_at_0)
    /\ reads (world s') = (4 * 3%nat + reads (world starting_at_0))%nat
    /\ (forall ph, In ph [MPWM_PH_A; MPWM_PH_B; MPWM_PH_C] ->
          phase_output (pwm_calls (world s')) ph = Some (MPWM_DORMANT, 0))).
Proof.
  split; [exact sample_header_wf|].
  apply (@stop_then_sampling sample_header steady_env 3%nat starting_at_0);
    [exact sample_header_wf].
Defined.

(** X22: sector 0, dormant phase above neutral, clock at 2000 ms *)
Lemma adcInterrupt_starting_crossing_witness :
  (header_wf sample_header)
  /\ (state (BLDC_motor starting_at_0) = BLDC_STARTING)
  /\ (dormantPhasePtr (BLDC_motor starting_at_0) = Some FieldPhaseC)
  /\ (sector_in_range starting_at_0)
  /\ (zero_crossing FieldPhaseC (neutralVoltage steady_env starting_at_0) (sampled steady_env starting_at_0) = true)
  /\ (u32 (MSTMR_value steady_env (4 + reads (world starting_at_0))) + 25 < 4294967296)
  /\ (u32 (MSTMR_value steady_env (5 + reads (world starting_at_0)))
  <= u32 (MSTMR_value steady_env (4 + reads (world starting_at_0))) + 25)
  /\ (exists s' d h l,
    exec (BLDC_adcInterrupt steady_env) starting_at_0 = Some s'
    /\ calls_since starting_at_0 s' = commutation_calls (dutyCycle (BLDC_motor starting_at_0)) d h l
    /\ sector (BLDC_motor s')
       = advance (direction (BLDC_motor starting_at_0)) (sector (BLDC_motor starting_at_0))).
Proof.
  split; [exact sample_header_wf|].
  split; [reflexivity|].
  split; [reflexivity|].
  split; [unfold sector_in_range; cbn; lia|].
  split; [vm_compute; reflexivity|].
  split; [vm_compute; reflexivity|].
  split; [vm_compute; discriminate|].
  apply (@adcInterrupt_starting_crossing sample_header steady_env starting_at_0 FieldPhaseC);
    [exact sample_header_wf | reflexivity | reflexivity | unfold sector_in_range; cbn; lia | vm_compute; reflexivity | vm_compute; reflexivity | vm_compute; discriminate].
Defined.

